(** * CogniMeet: the matchmaking and session-lifecycle engine of [app.py]

    A shallow embedding of the Socket.IO handlers of [app.py]
    ([handle_join_queue], [check_timeout], [handle_cancel_search],
    [handle_disconnect], [handle_end_session], the [logout] route) and of
    the Daily.co helpers ([create_daily_room], [delete_daily_room]).

    The two module-level globals [waiting_queue] and [active_sessions],
    the [voice_session] table, the messages handed to Socket.IO and the
    HTTP requests sent to Daily.co are the fields of one [state] record,
    threaded explicitly through every handler.  What a handler reads from
    outside the process (random tokens, HTTP answers) is an [Env.t] argument;
    [time.time()] and [datetime.utcnow()] read the logical [clock]. *)

From stdpp Require Import gmap strings list fin_maps.

Open Scope string_scope.
Open Scope list_scope.
Open Scope nat_scope.

(** ** Data model *)

(** [current_user]: the fields of the [User] row the handlers read. *)
Module User.
Record t := mk { id : Z; username : string; is_authenticated : bool }.
End User.

(** The request context of a Socket.IO handler: [current_user] and
    [request.sid]. *)
Module Request.
Record t := mk { current_user : User.t; sid : string }.
End Request.

(** One dict of [waiting_queue]:
    [{'user_id', 'username', 'sid', 'joined_at'}]. *)
Module Waiting.
Record t := mk { user_id : Z; username : string; sid : string; joined_at : Z }.
End Waiting.

(** One row of the [VoiceSession] model. *)
Module VoiceSession.
Record t := mk {
  session_id : string;
  room_name : string;
  room_url : string;
  user1_id : Z;
  user2_id : option Z;
  is_ai_session : bool;
  status : string;
  created_at : Z;
  ended_at : option Z }.
End VoiceSession.

(** One value of the [active_sessions] dict.  The key ['is_ai'] is only
    written by [check_timeout], hence the option. *)
Module ActiveSession.
Record t := mk {
  user1_id : Z;
  user2_id : option Z;
  room_name : string;
  room_url : string;
  created_at : Z;
  is_ai : option bool }.
End ActiveSession.

(** The events the server emits, with their payloads.  The fallback
    [matched] payload has no ['partner_name'] key.  The server has no
    [emit('error', ...)]: the client listens for it, nothing sends it. *)
Inductive message :=
| connected (user_id : Z)
| waiting (position : nat)
| matched (session_id room_url : string) (is_ai : bool)
    (partner_name : option string)
| search_cancelled
| session_ended.

(** What [requests.post] / [requests.delete] can do: answer with a status
    code (and, for a room creation, a body from which ['url'] and ['name']
    can be read or not), or raise. *)
Inductive http_result :=
| Response (status_code : Z) (json : option (string * string))
| RequestException.

(** The requests that reach Daily.co. *)
Inductive daily_call :=
| POST_rooms (name : string)
| DELETE_rooms (name : string).

(** What one handler run draws from outside: [secrets.token_urlsafe(16)],
    [secrets.token_hex(8)] and the answers of Daily.co. *)
Module Env.
Record t := mk {
  token_urlsafe : string;
  token_hex : string;
  post : http_result;
  delete : http_result }.
End Env.

(** A background task started by
    [socketio.start_background_task(check_timeout, user_id, sid)]:
    asleep in [time.sleep(8)], or past line 291 with its local
    [user_in_queue], or finished. *)
Inductive task_pc :=
| sleeping (wake_at : Z)
| checked (user_in_queue : bool)
| finished.

Module Task.
Record t := mk { user_id : Z; sid : string; pc : task_pc }.
End Task.

Record state := mkState {
  waiting_queue : list Waiting.t;
  active_sessions : gmap string ActiveSession.t;
  voice_session : list VoiceSession.t;
  emitted : list (string * message);
  daily : list daily_call;
  tasks : list Task.t;
  clock : Z }.

Definition initial : state :=
  mkState [] ∅ [] [] [] [] 0.

(** Field updates. *)
Definition set_queue (q : list Waiting.t) (st : state) : state :=
  mkState q (active_sessions st) (voice_session st) (emitted st) (daily st)
    (tasks st) (clock st).

Definition set_active (m : gmap string ActiveSession.t) (st : state) : state :=
  mkState (waiting_queue st) m (voice_session st) (emitted st) (daily st)
    (tasks st) (clock st).

Definition set_table (tbl : list VoiceSession.t) (st : state) : state :=
  mkState (waiting_queue st) (active_sessions st) tbl (emitted st) (daily st)
    (tasks st) (clock st).

Definition set_tasks (ts : list Task.t) (st : state) : state :=
  mkState (waiting_queue st) (active_sessions st) (voice_session st)
    (emitted st) (daily st) ts (clock st).

Definition set_clock (t : Z) (st : state) : state :=
  mkState (waiting_queue st) (active_sessions st) (voice_session st)
    (emitted st) (daily st) (tasks st) t.

(** [socketio.emit(..., room=sid)]; [emit(...)] inside a handler is the
    same with [request.sid]. *)
Definition emit_to (sid : string) (m : message) (st : state) : state :=
  mkState (waiting_queue st) (active_sessions st) (voice_session st)
    (emitted st ++ [(sid, m)]) (daily st) (tasks st) (clock st).

Definition call_daily (cs : list daily_call) (st : state) : state :=
  mkState (waiting_queue st) (active_sessions st) (voice_session st)
    (emitted st) (daily st ++ cs) (tasks st) (clock st).

(** How a run of a handler or of a task finishes: it returns, or
    [db.session.commit()] raises on the [unique=True] constraint of
    [session_id], or [db.session.add] raises because the thread has no
    application context, or [popleft] raises on an empty deque. *)
Inductive outcome := Returned | IntegrityError | RuntimeError | IndexError.

(** ** The queue primitives *)

(** [deque([u for u in waiting_queue if u['user_id'] != user_id])] *)
Definition without_user (uid : Z) (q : list Waiting.t) : list Waiting.t :=
  filter (λ u, Waiting.user_id u ≠ uid) q.

(** [waiting_queue.append(x)] *)
Definition append (q : list Waiting.t) (x : Waiting.t) : list Waiting.t :=
  q ++ [x].

(** [waiting_queue.popleft()], guarded in the source by [len(...) > 0]. *)
Definition popleft (q : list Waiting.t) : option (Waiting.t * list Waiting.t) :=
  match q with
  | [] => None
  | x :: q' => Some (x, q')
  end.

(** [any(u['user_id'] == user_id for u in waiting_queue)] *)
Definition user_in_queue (uid : Z) (q : list Waiting.t) : bool :=
  existsb (λ u, bool_decide (Waiting.user_id u = uid)) q.

(** ** The [voice_session] table *)

(** [VoiceSession.query.filter_by(session_id=k).first()] *)
Definition query_first (k : string) (tbl : list VoiceSession.t)
  : option (nat * VoiceSession.t) :=
  list_find (λ r, VoiceSession.session_id r = k) tbl.

(** [db.session.add(row); db.session.commit()] under the uniqueness of
    [session_id]. *)
Definition add_commit (row : VoiceSession.t) (tbl : list VoiceSession.t)
  : option (list VoiceSession.t) :=
  match query_first (VoiceSession.session_id row) tbl with
  | Some _ => None
  | None => Some (tbl ++ [row])
  end.

(** ** The join handler as a thread

    [async_mode='threading'] runs every handler in a thread of its own and
    [app.py] takes no lock, so another handler can run between two lines
    of [handle_join_queue].  Here the handler is cut at the lines that read
    or write [waiting_queue], [active_sessions], the table or the sockets.
    A thread carries its request, what it draws from outside, and where it
    stands, with the locals it holds there ([partner], [room_url],
    [room_name]). *)
Inductive join_pc :=
| at_222
| at_225
| at_226
| at_233 (partner : Waiting.t)
| at_243 (partner : Waiting.t) (room_url room_name : string)
| at_247 (partner : Waiting.t) (room_url room_name : string)
| at_258 (partner : Waiting.t) (room_url : string)
| at_265 (partner : Waiting.t) (room_url : string)
| at_274
| at_280
| at_284
| join_done (o : outcome).

Module JoinThread.
Record t := mk { env : Env.t; request : Request.t; pc : join_pc }.
End JoinThread.

(** ** Daily.co room management *)

(** The two settings [app.py] reads from the environment when it is
    loaded; the key may be empty (then no request is sent to Daily.co).

    The third field is a fact about the installed Flask-SQLAlchemy, which
    [app.py] does not pin: whether [db.session] can be used in the thread
    of [socketio.start_background_task], which runs [check_timeout] with
    no application context.  Before 3.0 it can (the session falls back to
    the application the extension was created with); from 3.0 on, which is
    what [pip install flask-sqlalchemy] gives and what [db.session.get]
    and the [app.app_context()] around [db.create_all()] are written for,
    [db.session.add] raises [RuntimeError] there. *)
Class Config := {
  DAILY_API_KEY : string;
  DAILY_DOMAIN : string;
  task_db_session : bool }.

Section Engine.

Context {cfg : Config}.

(** [f"https://{DAILY_DOMAIN}.daily.co/{room_name}"] *)
Definition fallback_url (room_name : string) : string :=
  "https://" +:+ DAILY_DOMAIN +:+ ".daily.co/" +:+ room_name.

(** [create_daily_room]: the pair [(room_url, room_name)] it returns and
    the request it sent, if any. *)
Definition create_daily_room (answer : http_result) (room_name : string)
  : (string * string) * list daily_call :=
  if decide (DAILY_API_KEY = "") then
    ((fallback_url room_name, room_name), [])
  else
    (match answer with
     | Response code body =>
         if decide (code = 200%Z) then
           match body with
           | Some (url, name) => (url, name)
           | None => (fallback_url room_name, room_name)
           end
         else (fallback_url room_name, room_name)
     | RequestException => (fallback_url room_name, room_name)
     end, [POST_rooms room_name]).

(** [delete_daily_room]: the boolean it returns and the request it sent. *)
Definition delete_daily_room (answer : http_result) (room_name : string)
  : bool * list daily_call :=
  if decide (DAILY_API_KEY = "") then (true, [])
  else
    (match answer with
     | Response code _ => bool_decide (code = 200%Z)
     | RequestException => false
     end, [DELETE_rooms room_name]).

(** ** Socket.IO handlers *)

Definition handle_connect (r : Request.t) (st : state) : state :=
  if User.is_authenticated (Request.current_user r) then
    emit_to (Request.sid r) (connected (User.id (Request.current_user r))) st
  else st.

Definition handle_disconnect (r : Request.t) (st : state) : state :=
  if User.is_authenticated (Request.current_user r) then
    set_queue
      (without_user (User.id (Request.current_user r)) (waiting_queue st)) st
  else st.

(** The [/logout] route ([@login_required]). *)
Definition logout (r : Request.t) (st : state) : state :=
  if User.is_authenticated (Request.current_user r) then
    set_queue
      (without_user (User.id (Request.current_user r)) (waiting_queue st)) st
  else st.

Definition handle_cancel_search (r : Request.t) (st : state) : state :=
  if User.is_authenticated (Request.current_user r) then
    emit_to (Request.sid r) search_cancelled
      (set_queue
         (without_user (User.id (Request.current_user r)) (waiting_queue st))
         st)
  else st.

(** Lines 228-270: the pairing branch, entered with [partner] popped. *)
Definition pair_with (e : Env.t) (r : Request.t) (partner : Waiting.t)
    (st : state) : state * outcome :=
  let user_id := User.id (Request.current_user r) in
  let username := User.username (Request.current_user r) in
  let session_id := Env.token_urlsafe e in
  let '((room_url, room_name), calls) :=
    create_daily_room (Env.post e) ("room" +:+ Env.token_hex e) in
  let st := call_daily calls st in
  let session_obj :=
    VoiceSession.mk session_id room_name room_url
      (Waiting.user_id partner) (Some user_id) false "active" (clock st) None in
  match add_commit session_obj (voice_session st) with
  | None => (st, IntegrityError)
  | Some tbl =>
      let st := set_table tbl st in
      let st :=
        set_active
          (<[session_id :=
               ActiveSession.mk (Waiting.user_id partner) (Some user_id)
                 room_name room_url (clock st) None]> (active_sessions st))
          st in
      let st :=
        emit_to (Waiting.sid partner)
          (matched session_id room_url false (Some username)) st in
      let st :=
        emit_to (Request.sid r)
          (matched session_id room_url false
             (Some (Waiting.username partner))) st in
      (st, Returned)
  end.

(** Lines 273-284: the enqueue branch. *)
Definition enqueue (r : Request.t) (st : state) : state :=
  let user_id := User.id (Request.current_user r) in
  let username := User.username (Request.current_user r) in
  let st :=
    set_queue
      (append (waiting_queue st)
         (Waiting.mk user_id username (Request.sid r) (clock st))) st in
  let st := emit_to (Request.sid r) (waiting (length (waiting_queue st))) st in
  set_tasks
    (tasks st ++ [Task.mk user_id (Request.sid r) (sleeping (clock st + 8))])
    st.

Definition handle_join_queue (e : Env.t) (r : Request.t) (st : state)
  : state * outcome :=
  if User.is_authenticated (Request.current_user r) then
    let user_id := User.id (Request.current_user r) in
    let st := set_queue (without_user user_id (waiting_queue st)) st in
    match popleft (waiting_queue st) with
    | Some (partner, q) => pair_with e r partner (set_queue q st)
    | None => (enqueue r st, Returned)
    end
  else (st, Returned).

(** Lines 294-328: the body of [if user_in_queue:] in [check_timeout].
    The entry is removed (295) and the room requested (301) before
    [db.session.add] (310), which raises when the task's thread cannot use
    [db.session]: the rest of the body is then never run. *)
Definition check_timeout_fallback (e : Env.t) (user_id : Z) (sid : string)
    (st : state) : state * outcome :=
  let st := set_queue (without_user user_id (waiting_queue st)) st in
  let session_id := Env.token_urlsafe e in
  let '((room_url, room_name), calls) :=
    create_daily_room (Env.post e) ("ai" +:+ Env.token_hex e) in
  let st := call_daily calls st in
  if task_db_session then
    let session_obj :=
      VoiceSession.mk session_id room_name room_url user_id None true "active"
        (clock st) None in
    match add_commit session_obj (voice_session st) with
    | None => (st, IntegrityError)
    | Some tbl =>
        let st := set_table tbl st in
        let st :=
          set_active
            (<[session_id :=
                 ActiveSession.mk user_id None room_name room_url (clock st)
                   (Some true)]> (active_sessions st))
            st in
        (emit_to sid (matched session_id room_url true None) st, Returned)
    end
  else (st, RuntimeError).

(** [check_timeout] from the return of [time.sleep(8)] on, run without
    interruption: line 291, then the branch. *)
Definition check_timeout (e : Env.t) (user_id : Z) (sid : string)
    (st : state) : state * outcome :=
  if user_in_queue user_id (waiting_queue st) then
    check_timeout_fallback e user_id sid st
  else (st, Returned).

(** [data.get('session_id')] is [None] when the key is missing; the test
    [if session_id:] also rejects the empty string. *)
Definition truthy (data : option string) : option string :=
  match data with
  | Some k => if decide (k = "") then None else Some k
  | None => None
  end.

Definition end_row (now : Z) (s : VoiceSession.t) : VoiceSession.t :=
  VoiceSession.mk (VoiceSession.session_id s) (VoiceSession.room_name s)
    (VoiceSession.room_url s) (VoiceSession.user1_id s)
    (VoiceSession.user2_id s) (VoiceSession.is_ai_session s) "ended"
    (VoiceSession.created_at s) (Some now).

Definition handle_end_session (e : Env.t) (r : Request.t)
    (data : option string) (st : state) : state :=
  if User.is_authenticated (Request.current_user r) then
    let st :=
      match truthy data with
      | Some session_id =>
          match query_first session_id (voice_session st) with
          | Some (i, session_obj) =>
              let st :=
                set_table (<[i := end_row (clock st) session_obj]>
                             (voice_session st)) st in
              let st :=
                call_daily
                  (snd (delete_daily_room (Env.delete e)
                          (VoiceSession.room_name session_obj))) st in
              set_active (base.delete session_id (active_sessions st)) st
          | None => st
          end
      | None => st
      end in
    emit_to (Request.sid r) session_ended st
  else st.

(** ** The transition system, handlers taken one at a time

    Every Socket.IO handler is one transition here.  A [check_timeout]
    task takes two: [TimerWake] is the return of [time.sleep(8)] followed
    by line 291, [TimerRun] is the rest of the function, so that handlers
    can run between the membership test and the body.

    [app.py] itself takes no lock, and [async_mode='threading'] lets the
    lines of two handlers interleave: the states of [reachable] below are
    those of the server when no two handlers overlap, and a server under
    concurrent requests reaches more.  [tstep_fun], further down, cuts
    the join handler into its lines and adds those interleavings. *)
Inductive label :=
| Tick (dt : Z)
| Connect (r : Request.t)
| Disconnect (r : Request.t)
| Logout (r : Request.t)
| JoinQueue (e : Env.t) (r : Request.t)
| CancelSearch (r : Request.t)
| EndSession (e : Env.t) (r : Request.t) (data : option string)
| TimerWake (i : nat)
| TimerRun (e : Env.t) (i : nat).

Definition set_pc (i : nat) (p : task_pc) (st : state) : state :=
  set_tasks
    (alter (λ t, Task.mk (Task.user_id t) (Task.sid t) p) i (tasks st)) st.

Definition timer_wake (i : nat) (st : state) : option state :=
  match tasks st !! i with
  | Some t =>
      match Task.pc t with
      | sleeping w =>
          if decide (w ≤ clock st)%Z then
            Some (set_pc i
                    (checked (user_in_queue (Task.user_id t)
                                (waiting_queue st))) st)
          else None
      | _ => None
      end
  | None => None
  end.

Definition timer_run (e : Env.t) (i : nat) (st : state) : option state :=
  match tasks st !! i with
  | Some t =>
      match Task.pc t with
      | checked b =>
          Some (set_pc i finished
                  (if b then
                     fst (check_timeout_fallback e (Task.user_id t)
                            (Task.sid t) st)
                   else st))
      | _ => None
      end
  | None => None
  end.

Definition step_fun (l : label) (st : state) : option state :=
  match l with
  | Tick dt =>
      if decide (0 ≤ dt)%Z then Some (set_clock (clock st + dt) st) else None
  | Connect r => Some (handle_connect r st)
  | Disconnect r => Some (handle_disconnect r st)
  | Logout r => Some (logout r st)
  | JoinQueue e r => Some (fst (handle_join_queue e r st))
  | CancelSearch r => Some (handle_cancel_search r st)
  | EndSession e r data => Some (handle_end_session e r data st)
  | TimerWake i => timer_wake i st
  | TimerRun e i => timer_run e i st
  end.

Fixpoint run (ls : list label) (st : state) : option state :=
  match ls with
  | [] => Some st
  | l :: ls' =>
      match step_fun l st with
      | Some st' => run ls' st'
      | None => None
      end
  end.

(** The states the server goes through when its handlers run one at a
    time. *)
Definition reachable (st : state) : Prop :=
  ∃ ls, run ls initial = Some st.

(** [popleft] repeated [n] times: the entries in the order they leave. *)
Fixpoint popleft_many (n : nat) (q : list Waiting.t) : list Waiting.t :=
  match n with
  | O => []
  | S n' =>
      match popleft q with
      | Some (x, q') => x :: popleft_many n' q'
      | None => []
      end
  end.

(** The session id [k] is not yet a [session_id] of the table. *)
Definition fresh (k : string) (st : state) : Prop :=
  query_first k (voice_session st) = None.

(** [uid] is a participant of a session of the [active_sessions] dict. *)
Definition participant (uid : Z) (s : ActiveSession.t) : Prop :=
  ActiveSession.user1_id s = uid ∨ ActiveSession.user2_id s = Some uid.

Definition in_active_session (uid : Z) (st : state) : Prop :=
  ∃ k s, active_sessions st !! k = Some s ∧ participant uid s.

(** The room [create_daily_room] hands back for the name
    [prefix + token_hex]. *)
Definition room_for (prefix : string) (e : Env.t) : string * string :=
  fst (create_daily_room (Env.post e) (prefix +:+ Env.token_hex e)).

(** The number of [matched] events sent to [sid]. *)
Definition is_matched (m : message) : bool :=
  match m with
  | matched _ _ _ _ => true
  | _ => false
  end.

Definition matched_count (sid : string) (log : list (string * message)) : nat :=
  length
    (List.filter (λ p, bool_decide (fst p = sid) && is_matched (snd p)) log).

(** The number of release requests for [room] that reached Daily.co. *)
Definition release_count (room : string) (cs : list daily_call) : nat :=
  length (List.filter
            (λ c, match c with
                  | DELETE_rooms n => bool_decide (n = room)
                  | POST_rooms _ => false
                  end) cs).

(** The queue holds at most one entry. *)
Definition short_queue (st : state) : Prop := length (waiting_queue st) ≤ 1.

(** A room creation that did not succeed: the request raised, or the
    answer is not a 200, or it is a 200 whose body cannot be read
    ([response.json()] or one of the two keys raises inside the [try]).
    A deletion that did not succeed: the request raised, or the answer is
    not a 200. *)
Definition create_failed (answer : http_result) : Prop :=
  answer = RequestException ∨
  (∃ c b, answer = Response c b ∧ c ≠ 200%Z) ∨
  answer = Response 200 None.


(** ** What one transition does to the sessions

    Used to state invariants of the table, of [active_sessions] and of the
    emitted events. *)

(** An event that announces no session; a [waiting] event among them
    carries position 1. *)
Definition quiet (ev : string * message) : Prop :=
  match snd ev with
  | matched _ _ _ _ => False
  | waiting n => n = 1
  | _ => True
  end.

(** A [matched] event for the session of [row]. *)
Definition announces (row : VoiceSession.t) (ev : string * message) : Prop :=
  ∃ partner,
    snd ev = matched (VoiceSession.session_id row) (VoiceSession.room_url row)
               (VoiceSession.is_ai_session row) partner.

(** The dict entry [a] under key [k] and the table row [row] describe the
    same session, and the row is active. *)
Definition agrees (k : string) (a : ActiveSession.t) (row : VoiceSession.t)
  : Prop :=
  VoiceSession.session_id row = k ∧
  VoiceSession.user1_id row = ActiveSession.user1_id a ∧
  VoiceSession.user2_id row = ActiveSession.user2_id a ∧
  VoiceSession.room_name row = ActiveSession.room_name a ∧
  VoiceSession.room_url row = ActiveSession.room_url a ∧
  VoiceSession.status row = "active".

(** A row as the two session-creating branches build it. *)
Definition new_row (row : VoiceSession.t) : Prop :=
  VoiceSession.status row = "active" ∧
  VoiceSession.ended_at row = None ∧
  VoiceSession.user2_id row ≠ Some (VoiceSession.user1_id row) ∧
  (VoiceSession.is_ai_session row = true ↔ VoiceSession.user2_id row = None).

(** A row whose [status] and [ended_at] go together. *)
Definition row_well_formed (row : VoiceSession.t) : Prop :=
  (VoiceSession.status row = "active" ∧ VoiceSession.ended_at row = None) ∨
  (VoiceSession.status row = "ended" ∧
   ∃ t, VoiceSession.ended_at row = Some t).

(** The three things a transition can do to the table and the dict:
    nothing, add one session, end one session. *)
Inductive effect (st st' : state) : Prop :=
| effect_quiet evs :
    voice_session st' = voice_session st →
    active_sessions st' = active_sessions st →
    emitted st' = emitted st ++ evs →
    Forall quiet evs →
    effect st st'
| effect_created row a evs :
    add_commit row (voice_session st) = Some (voice_session st') →
    active_sessions st'
      = <[VoiceSession.session_id row := a]> (active_sessions st) →
    agrees (VoiceSession.session_id row) a row →
    new_row row →
    VoiceSession.created_at row = clock st →
    emitted st' = emitted st ++ evs →
    Forall (announces row) evs →
    effect st st'
| effect_ended k i row sid :
    query_first k (voice_session st) = Some (i, row) →
    voice_session st' = <[i := end_row (clock st) row]> (voice_session st) →
    active_sessions st' = base.delete k (active_sessions st) →
    emitted st' = emitted st ++ [(sid, session_ended)] →
    effect st st'.


Definition is_end_session (l : label) : bool :=
  match l with
  | EndSession _ _ _ => true
  | _ => false
  end.


(** Session ids are unique in the table, and every entry of the dict has
    its row. *)
Definition registry_consistent (st : state) : Prop :=
  NoDup (VoiceSession.session_id <$> voice_session st) ∧
  ∀ k a, active_sessions st !! k = Some a →
         ∃ i row, voice_session st !! i = Some row ∧ agrees k a row.

(** What every row of the table satisfies. *)
Definition row_ok (row : VoiceSession.t) : Prop :=
  row_well_formed row ∧
  VoiceSession.user2_id row ≠ Some (VoiceSession.user1_id row) ∧
  (VoiceSession.is_ai_session row = true ↔ VoiceSession.user2_id row = None).

(** The event [ev] is quiet or announces a session of the table. *)
Definition event_ok (tbl : list VoiceSession.t) (ev : string * message)
  : Prop :=
  quiet ev ∨ ∃ row, row ∈ tbl ∧ announces row ev.


(** The request a handler transition runs for. *)
Definition request_of (l : label) : option Request.t :=
  match l with
  | Connect r | Disconnect r | Logout r | JoinQueue _ r | CancelSearch r
  | EndSession _ r _ => Some r
  | Tick _ | TimerWake _ | TimerRun _ _ => None
  end.


(** ** The lines of the join thread *)

(** The line a thread stands at, run on the shared state: where the thread
    stands next, and the state.  Line 226 raises [IndexError] when the
    deque has been emptied since the test of line 225. *)
Definition join_line (t : JoinThread.t) (st : state) : join_pc * state :=
  let e := JoinThread.env t in
  let r := JoinThread.request t in
  let user_id := User.id (Request.current_user r) in
  let username := User.username (Request.current_user r) in
  let session_id := Env.token_urlsafe e in
  match JoinThread.pc t with
  | at_222 => (at_225, set_queue (without_user user_id (waiting_queue st)) st)
  | at_225 =>
      (if decide (0 < length (waiting_queue st)) then at_226 else at_274, st)
  | at_226 =>
      match popleft (waiting_queue st) with
      | Some (partner, q) => (at_233 partner, set_queue q st)
      | None => (join_done IndexError, st)
      end
  | at_233 partner =>
      let '((room_url, room_name), calls) :=
        create_daily_room (Env.post e) ("room" +:+ Env.token_hex e) in
      (at_243 partner room_url room_name, call_daily calls st)
  | at_243 partner room_url room_name =>
      match
        add_commit
          (VoiceSession.mk session_id room_name room_url
             (Waiting.user_id partner) (Some user_id) false "active"
             (clock st) None)
          (voice_session st)
      with
      | None => (join_done IntegrityError, st)
      | Some tbl => (at_247 partner room_url room_name, set_table tbl st)
      end
  | at_247 partner room_url room_name =>
      (at_258 partner room_url,
       set_active
         (<[session_id :=
              ActiveSession.mk (Waiting.user_id partner) (Some user_id)
                room_name room_url (clock st) None]> (active_sessions st))
         st)
  | at_258 partner room_url =>
      (at_265 partner room_url,
       emit_to (Waiting.sid partner)
         (matched session_id room_url false (Some username)) st)
  | at_265 partner room_url =>
      (join_done Returned,
       emit_to (Request.sid r)
         (matched session_id room_url false
            (Some (Waiting.username partner))) st)
  | at_274 =>
      (at_280,
       set_queue
         (append (waiting_queue st)
            (Waiting.mk user_id username (Request.sid r) (clock st))) st)
  | at_280 =>
      (at_284,
       emit_to (Request.sid r) (waiting (length (waiting_queue st))) st)
  | at_284 =>
      (join_done Returned,
       set_tasks
         (tasks st ++
            [Task.mk user_id (Request.sid r) (sleeping (clock st + 8))]) st)
  | join_done o => (join_done o, st)
  end.


(** The shared state together with the join threads under way. *)
Record world := mkWorld {
  shared : state;
  joins : list JoinThread.t }.

Definition initial_world : world := mkWorld initial [].

(** The transitions of the threaded system: any transition of [step_fun]
    (a handler or a timer step run in one piece), the start of a join
    handler as a thread (line 214 lets only logged-in users in), and one
    line of the join thread number [j]. *)
Inductive tlabel :=
| Serial (l : label)
| Spawn (e : Env.t) (r : Request.t)
| Line (j : nat).

Definition tstep_fun (l : tlabel) (w : world) : option world :=
  match l with
  | Serial l =>
      match step_fun l (shared w) with
      | Some st => Some (mkWorld st (joins w))
      | None => None
      end
  | Spawn e r =>
      if User.is_authenticated (Request.current_user r) then
        Some (mkWorld (shared w) (joins w ++ [JoinThread.mk e r at_222]))
      else Some w
  | Line j =>
      match joins w !! j with
      | Some t =>
          match JoinThread.pc t with
          | join_done _ => None
          | _ =>
              let '(pc, st) := join_line t (shared w) in
              Some (mkWorld st
                      (<[j := JoinThread.mk (JoinThread.env t)
                                (JoinThread.request t) pc]> (joins w)))
          end
      | None => None
      end
  end.

Fixpoint trun (ls : list tlabel) (w : world) : option world :=
  match ls with
  | [] => Some w
  | l :: ls' =>
      match tstep_fun l w with
      | Some w' => trun ls' w'
      | None => None
      end
  end.


End Engine.

(** ** A concrete deployment

    The defaults of [app.py] for the Daily.co key and domain, on the
    current Flask-SQLAlchemy, two logged-in users with one connection each,
    and what the outside answers. *)

Definition deployed : Config := {|
  DAILY_API_KEY :=
    "9789ec46ecd5fff641d8395bb0304aeced23e5b92853493fcc4985295553c882";
  DAILY_DOMAIN := "growthstudent";
  task_db_session := false |}.

(** The same deployment on Flask-SQLAlchemy before 3.0. *)
Definition legacy : Config := {|
  DAILY_API_KEY :=
    "9789ec46ecd5fff641d8395bb0304aeced23e5b92853493fcc4985295553c882";
  DAILY_DOMAIN := "growthstudent";
  task_db_session := true |}.

Definition alice : Request.t := Request.mk (User.mk 1 "alice" true) "sid-alice".
Definition bob : Request.t := Request.mk (User.mk 2 "bob" true) "sid-bob".

Definition env_ok : Env.t :=
  Env.mk "S1" "0a1b"
    (Response 200
       (Some ("https://growthstudent.daily.co/room0a1b", "room0a1b")))
    (Response 200 None).

Definition env_down : Env.t :=
  Env.mk "S2" "2c3d" RequestException (Response 404 None).

Definition env_third : Env.t :=
  Env.mk "S3" "4e5f" (Response 500 None) RequestException.

(** Alice alone in the queue, her timer armed for time 8. *)
Definition alice_waiting : state :=
  fst (handle_join_queue (cfg := deployed) env_ok alice initial).

Definition alice_entry : Waiting.t := Waiting.mk 1 "alice" "sid-alice" 0.

(** Alice and Bob paired into session [S1]. *)
Definition paired : state :=
  fst (handle_join_queue (cfg := deployed) env_ok bob alice_waiting).

Definition paired_row : VoiceSession.t :=
  VoiceSession.mk "S1" "room0a1b" "https://growthstudent.daily.co/room0a1b"
    1 (Some 2%Z) false "active" 0 None.

(** * Accounts: the [/login] route and [load_user] *)

(** One row of the [User] model. *)
Module Account.
Record t := mk {
  id : Z;
  username : string;
  password : string;
  created_at : Z }.
End Account.

(** The two library functions [login] calls on the submitted strings:
    [str.strip()] and [hashlib.sha256(s.encode()).hexdigest()].  Nothing is
    assumed about them. *)
Class Builtins := {
  str_strip : string → string;
  sha256_hexdigest : string → string }.

Inductive http_method := GET | POST.

(** What [login] answers: the login page, [jsonify({'error': ...})] with a
    status code, or [jsonify({'success': True, 'redirect': ...})]. *)
Inductive login_response :=
| login_page
| login_error (code : Z) (error : string)
| login_success (redirect : string).

(** One request to [/login]: the time it is served, its method and the
    two fields of its body, [None] when the key is missing. *)
Module LoginRequest.
Record t := mk {
  now : Z;
  method : http_method;
  username : option string;
  password : option string }.
End LoginRequest.

(** The primary key the database gives a new row: one more than the
    largest id in the table, 1 in an empty table. *)
Definition next_id (users : list Account.t) : Z :=
  (1 + foldr Z.max 0 (Account.id <$> users))%Z.

(** [User.query.filter_by(username=username).first()] *)
Definition find_username (username : string) (users : list Account.t)
  : option (nat * Account.t) :=
  list_find (λ a, Account.username a = username) users.

(** [db.session.get(User, int(user_id))], from the integer on. *)
Definition load_user (user_id : Z) (users : list Account.t)
  : option Account.t :=
  snd <$> list_find (λ a, Account.id a = user_id) users.

Section Accounts.

Context {lib : Builtins}.

(** [login]: the table after the request, the response, and the account
    handed to [login_user], if any. *)
Definition login (q : LoginRequest.t) (users : list Account.t)
  : list Account.t * login_response * option Account.t :=
  match LoginRequest.method q with
  | POST =>
      let username := str_strip (default "" (LoginRequest.username q)) in
      let password := default "" (LoginRequest.password q) in
      if decide (username = "" ∨ password = "") then
        (users, login_error 400 "Username and password required", None)
      else
        match find_username username users with
        | None =>
            let user :=
              Account.mk (next_id users) username (sha256_hexdigest password)
                (LoginRequest.now q) in
            (users ++ [user], login_success "/", Some user)
        | Some (_, user) =>
            if decide (Account.password user ≠ sha256_hexdigest password) then
              (users, login_error 401 "Invalid password", None)
            else (users, login_success "/", Some user)
        end
  | GET => (users, login_page, None)
  end.

(** The table after a sequence of requests. *)
Definition logins (qs : list LoginRequest.t) (users : list Account.t)
  : list Account.t :=
  foldl (λ us q, fst (fst (login q us))) users qs.

End Accounts.

(** * The schema: [migrate_database] *)

(** A table of the database: its column names and how many rows it
    holds. *)
Module Table.
Record t := mk { columns : list string; rows : nat }.
End Table.

(** The tables of the two models, as [db.create_all()] creates them. *)
Definition user_columns : list string :=
  ["id"; "username"; "password"; "created_at"].

Definition voice_session_columns : list string :=
  ["id"; "session_id"; "room_name"; "room_url"; "user1_id"; "user2_id";
   "is_ai_session"; "status"; "created_at"; "ended_at"].

Definition metadata : list (string * list string) :=
  [("user", user_columns); ("voice_session", voice_session_columns)].

(** [db.create_all()] creates the tables that do not exist and leaves the
    others alone. *)
Definition create_table (db : gmap string Table.t) (m : string * list string)
  : gmap string Table.t :=
  match db !! fst m with
  | Some _ => db
  | None => <[fst m := Table.mk (snd m) 0]> db
  end.

Definition create_all (db : gmap string Table.t) : gmap string Table.t :=
  foldl create_table db metadata.

(** ['channel_name' in columns and 'room_name' not in columns] *)
Definition old_schema (t : Table.t) : bool :=
  bool_decide ("channel_name" ∈ Table.columns t)
  && negb (bool_decide ("room_name" ∈ Table.columns t)).

Definition migrate_database (db : gmap string Table.t) : gmap string Table.t :=
  let db :=
    match db !! "voice_session" with
    | Some t => if old_schema t then base.delete "voice_session" db else db
    | None => db
    end in
  create_all db.

(** A database left by the Agora version: a [voice_session] table with a
    [channel_name] column and three rows, and a [user] table. *)
Definition agora_db : gmap string Table.t :=
  <["voice_session" := Table.mk ["id"; "session_id"; "channel_name"] 3]>
    (<["user" := Table.mk user_columns 2]> ∅).

(** Stand-ins for the two library functions, to evaluate [login] on
    examples: the theorems hold for any two functions. *)
Definition stand_in : Builtins := {|
  str_strip := λ s, s;
  sha256_hexdigest := λ s, "sha256:" +:+ s |}.

Definition carol_signup : LoginRequest.t :=
  LoginRequest.mk 10 POST (Some "carol") (Some "secret").


(** More of the concrete deployment: a deployment without a key, a
    visitor who is not logged in, Alice on a second connection, and the
    states and rows the examples meet. *)
Definition keyless : Config := {|
  DAILY_API_KEY := "";
  DAILY_DOMAIN := "growthstudent";
  task_db_session := false |}.

Definition mallory : Request.t :=
  Request.mk (User.mk 3 "mallory" false) "sid-mallory".

Definition alice_phone : Request.t :=
  Request.mk (User.mk 1 "alice" true) "sid-alice-phone".

Definition paired_entry : ActiveSession.t :=
  ActiveSession.mk 1 (Some 2%Z) "room0a1b"
    "https://growthstudent.daily.co/room0a1b" 0 None.

(** Alice queued again while session [S1] goes on. *)
Definition alice_again : state :=
  fst (handle_join_queue (cfg := deployed) env_third alice paired).

(** Alice and Bob paired in the deployment without a key. *)
Definition keyless_paired : state :=
  fst (handle_join_queue (cfg := keyless) env_ok bob
         (fst (handle_join_queue (cfg := keyless) env_ok alice initial))).

Definition carol_row : Account.t := Account.mk 1 "carol" "sha256:secret" 10.

(** Two more logged-in users. *)
Definition erin : Request.t := Request.mk (User.mk 4 "erin" true) "sid-erin".
Definition dave : Request.t := Request.mk (User.mk 5 "dave" true) "sid-dave".

Definition dave_entry : Waiting.t := Waiting.mk 5 "dave" "sid-dave" 0.

Definition alice_phone_entry : Waiting.t :=
  Waiting.mk 1 "alice" "sid-alice-phone" 0.

(** Alice queued ahead of Dave. *)
Definition alice_then_dave : state :=
  set_queue [alice_entry; dave_entry] alice_waiting.

(** Alice queued twice, once per connection. *)
Definition alice_twice : state :=
  set_queue [alice_entry; alice_phone_entry] alice_waiting.

(** Alice joins from two connections at once: both threads run lines 222
    and 225 on the empty queue before either reaches line 274. *)
Definition two_tabs : list tlabel :=
  [Spawn env_ok alice; Spawn env_third alice_phone;
   Line 0; Line 0; Line 1; Line 1; Line 0; Line 1].

(** Bob's thread has passed the test of line 225 with Alice queued; Erin
    is then paired with Alice and Dave queued, each in one piece, before
    Bob's thread goes on to line 226 and beyond. *)
Definition overtaken : list tlabel :=
  [Spawn env_ok bob; Line 0; Line 0;
   Serial (JoinQueue env_third erin); Serial (JoinQueue env_down dave);
   Line 0; Line 0; Line 0; Line 0; Line 0; Line 0].

(** The same without Dave: Bob's thread reaches line 226 on an empty
    deque. *)
Definition emptied : list tlabel :=
  [Spawn env_ok bob; Line 0; Line 0;
   Serial (JoinQueue env_third erin); Line 0].

(** Alice's second connection is queued between lines 222 and 225 of her
    first. *)
Definition own_entry_popped : list tlabel :=
  [Spawn env_ok alice; Line 0; Spawn env_third alice_phone;
   Line 1; Line 1; Line 1;
   Line 0; Line 0; Line 0; Line 0; Line 0; Line 0; Line 0].


(** * Properties *)

Section Properties.

Context {cfg : Config}.

(** ** Basic facts on the queue primitives *)

Lemma without_user_length uid q :
  length (without_user uid q) ≤ length q.
Proof. apply length_filter. Qed.

Lemma user_in_queue_spec uid q :
  user_in_queue uid q = true ↔ ∃ u, u ∈ q ∧ Waiting.user_id u = uid.
Proof.
  unfold user_in_queue. rewrite existsb_exists. split.
  - intros (u & Hin & Hu). exists u. rewrite list_elem_of_In.
    split; [done|]. by apply bool_decide_eq_true in Hu.
  - intros (u & Hin & Hu). exists u. rewrite <- list_elem_of_In.
    split; [done|]. by apply bool_decide_eq_true.
Qed.

Lemma user_in_queue_without uid q :
  user_in_queue uid (without_user uid q) = false.
Proof.
  apply not_true_is_false. rewrite user_in_queue_spec.
  intros (u & Hin & Hu). apply list_elem_of_filter in Hin as [Hne _]. done.
Qed.

Lemma without_user_absent uid q :
  user_in_queue uid q = false → without_user uid q = q.
Proof.
  intros H. unfold without_user.
  induction q as [|u q IH]; [done|].
  simpl in H. apply orb_false_iff in H as [Hu Hq].
  apply bool_decide_eq_false in Hu.
  rewrite filter_cons_True by done. by rewrite IH.
Qed.

Lemma without_user_other uid a :
  Waiting.user_id a ≠ uid → without_user uid [a] = [a].
Proof. intros H. unfold without_user. by rewrite filter_cons_True. Qed.

Lemma short_queue_NoDup (q : list Waiting.t) :
  length q ≤ 1 → NoDup (Waiting.user_id <$> q).
Proof.
  destruct q as [|a [|b q]]; simpl; intros H.
  - constructor.
  - apply NoDup_singleton.
  - lia.
Qed.

Lemma without_user_ids_NoDup uid (q : list Waiting.t) :
  NoDup (Waiting.user_id <$> q) →
  NoDup (Waiting.user_id <$> without_user uid q).
Proof.
  intros Hnd.
  apply (sublist_NoDup _ (Waiting.user_id <$> q)); [exact Hnd|].
  apply fmap_sublist. unfold without_user. apply sublist_filter.
Qed.

(** ** What each handler does to the queue *)

Lemma pair_with_queue e r p st :
  waiting_queue (fst (pair_with e r p st)) = waiting_queue st.
Proof.
  unfold pair_with.
  destruct (create_daily_room _ _) as [[url name] calls]; simpl.
  by destruct (add_commit _ _).
Qed.

Lemma pair_with_tasks e r p st :
  tasks (fst (pair_with e r p st)) = tasks st.
Proof.
  unfold pair_with.
  destruct (create_daily_room _ _) as [[url name] calls]; simpl.
  by destruct (add_commit _ _).
Qed.

Lemma check_timeout_fallback_queue e uid sid st :
  waiting_queue (fst (check_timeout_fallback e uid sid st))
  = without_user uid (waiting_queue st).
Proof.
  unfold check_timeout_fallback.
  destruct (create_daily_room _ _) as [[url name] calls]; simpl.
  destruct task_db_session; [|done]. by destruct (add_commit _ _).
Qed.

Lemma handle_join_queue_queue e r st :
  User.is_authenticated (Request.current_user r) = true →
  waiting_queue (fst (handle_join_queue e r st))
  = match
      without_user (User.id (Request.current_user r)) (waiting_queue st)
    with
    | [] => [Waiting.mk (User.id (Request.current_user r))
               (User.username (Request.current_user r)) (Request.sid r)
               (clock st)]
    | _ :: rest => rest
    end.
Proof.
  intros Ha. unfold handle_join_queue. rewrite Ha. simpl.
  destruct (without_user _ _) as [|a rest]; simpl; [done|].
  by rewrite pair_with_queue.
Qed.

Lemma step_short_queue l st st' :
  step_fun l st = Some st' → short_queue st → short_queue st'.
Proof.
  unfold short_queue.
  destruct l as [dt|r|r|r|e r|r|e r data|i|e i]; simpl; intros Hs Hq.
  - case_decide; simplify_eq. done.
  - simplify_eq. unfold handle_connect. by case_match.
  - simplify_eq. unfold handle_disconnect. case_match; simpl; [|done].
    pose proof (without_user_length (User.id (Request.current_user r))
                  (waiting_queue st)). lia.
  - simplify_eq. unfold logout. case_match; simpl; [|done].
    pose proof (without_user_length (User.id (Request.current_user r))
                  (waiting_queue st)). lia.
  - simplify_eq.
    destruct (User.is_authenticated (Request.current_user r)) eqn:Ha.
    + rewrite handle_join_queue_queue by done.
      pose proof (without_user_length (User.id (Request.current_user r))
                    (waiting_queue st)) as Hl.
      destruct (without_user _ _) as [|a rest]; simpl in *; lia.
    + unfold handle_join_queue. by rewrite Ha.
  - simplify_eq. unfold handle_cancel_search. case_match; simpl; [|done].
    pose proof (without_user_length (User.id (Request.current_user r))
                  (waiting_queue st)). lia.
  - simplify_eq. unfold handle_end_session. case_match; simpl; [|done].
    repeat case_match; done.
  - unfold timer_wake in Hs. repeat case_match; simplify_eq. done.
  - unfold timer_run in Hs. repeat case_match; simplify_eq; simpl; try done.
    rewrite check_timeout_fallback_queue.
    match goal with
    | |- context [without_user ?u ?q] =>
        pose proof (without_user_length u q)
    end. lia.
Qed.

Lemma run_invariant (P : state → Prop) :
  (∀ l st st', step_fun l st = Some st' → P st → P st') →
  ∀ ls st st', run ls st = Some st' → P st → P st'.
Proof.
  intros Hstep ls. induction ls as [|l ls IH]; simpl; intros st st' Hr HP.
  - by simplify_eq.
  - destruct (step_fun l st) as [st1|] eqn:Hs; [|done]. eauto.
Qed.

Lemma reachable_short_queue st : reachable st → short_queue st.
Proof.
  intros [ls Hr].
  eapply (run_invariant short_queue step_short_queue); [done|].
  unfold short_queue. simpl. lia.
Qed.

Lemma reachable_step l st st' :
  reachable st → step_fun l st = Some st' → reachable st'.
Proof.
  intros [ls Hr] Hs. exists (ls ++ [l]).
  revert Hr. generalize initial.
  induction ls as [|l0 ls IH]; simpl; intros s0 Hr.
  - simplify_eq. by rewrite Hs.
  - destruct (step_fun l0 s0); [eauto|done].
Qed.

(** ** The two branches that create a session, when the token is fresh *)

Lemma pair_with_fresh e r p st :
  fresh (Env.token_urlsafe e) st →
  pair_with e r p st =
  (let k := Env.token_urlsafe e in
   let room := room_for "room" e in
   let uid := User.id (Request.current_user r) in
   mkState (waiting_queue st)
     (<[k := ActiveSession.mk (Waiting.user_id p) (Some uid) (snd room)
              (fst room) (clock st) None]> (active_sessions st))
     (voice_session st ++
        [VoiceSession.mk k (snd room) (fst room) (Waiting.user_id p)
           (Some uid) false "active" (clock st) None])
     (emitted st ++
        [(Waiting.sid p,
          matched k (fst room) false
            (Some (User.username (Request.current_user r))));
         (Request.sid r,
          matched k (fst room) false (Some (Waiting.username p)))])
     (daily st ++
        snd (create_daily_room (Env.post e) ("room" +:+ Env.token_hex e)))
     (tasks st) (clock st),
   Returned).
Proof.
  unfold fresh, pair_with, room_for. intros Hf.
  destruct (create_daily_room _ _) as [[url name] calls]; simpl.
  unfold add_commit; simpl. rewrite Hf. simpl.
  unfold emit_to; simpl. by rewrite <- app_assoc.
Qed.

Lemma check_timeout_fallback_fresh e uid sid st :
  task_db_session = true →
  fresh (Env.token_urlsafe e) st →
  check_timeout_fallback e uid sid st =
  (let k := Env.token_urlsafe e in
   let room := room_for "ai" e in
   mkState (without_user uid (waiting_queue st))
     (<[k := ActiveSession.mk uid None (snd room) (fst room) (clock st)
              (Some true)]> (active_sessions st))
     (voice_session st ++
        [VoiceSession.mk k (snd room) (fst room) uid None true "active"
           (clock st) None])
     (emitted st ++ [(sid, matched k (fst room) true None)])
     (daily st ++
        snd (create_daily_room (Env.post e) ("ai" +:+ Env.token_hex e)))
     (tasks st) (clock st),
   Returned).
Proof.
  unfold fresh, check_timeout_fallback, room_for. intros Hb Hf.
  destruct (create_daily_room _ _) as [[url name] calls]; simpl.
  rewrite Hb. unfold add_commit; simpl. by rewrite Hf.
Qed.

Lemma check_timeout_fallback_raises e uid sid st :
  task_db_session = false →
  check_timeout_fallback e uid sid st =
  (mkState (without_user uid (waiting_queue st)) (active_sessions st)
     (voice_session st) (emitted st)
     (daily st ++
        snd (create_daily_room (Env.post e) ("ai" +:+ Env.token_hex e)))
     (tasks st) (clock st),
   RuntimeError).
Proof.
  unfold check_timeout_fallback. intros Hb.
  destruct (create_daily_room _ _) as [[url name] calls]; simpl.
  by rewrite Hb.
Qed.

Lemma popleft_many_app (q es : list Waiting.t) :
  popleft_many (length q + length es) (foldl append q es) = q ++ es.
Proof.
  assert (Hf : ∀ es q, foldl append q es = q ++ es).
  { clear. induction es as [|x es IH]; intros q; simpl.
    - by rewrite app_nil_r.
    - rewrite IH. unfold append. by rewrite <- app_assoc. }
  rewrite Hf, <- length_app. generalize (q ++ es). clear.
  induction l as [|x l IH]; simpl; [done|]. by rewrite IH.
Qed.

(** ** The queue discipline *)

Lemma handle_join_queue_own_entry e r st u :
  User.is_authenticated (Request.current_user r) = true →
  u ∈ waiting_queue (fst (handle_join_queue e r st)) →
  Waiting.user_id u = User.id (Request.current_user r) →
  u = Waiting.mk (User.id (Request.current_user r))
        (User.username (Request.current_user r)) (Request.sid r) (clock st).
Proof.
  intros Ha Hin Hu. rewrite handle_join_queue_queue in Hin by done.
  destruct (without_user _ _) as [|a rest] eqn:Hq.
  - by apply list_elem_of_singleton in Hin.
  - assert (u ∈ without_user (User.id (Request.current_user r))
                  (waiting_queue st)) as Hin'
      by (rewrite Hq; by apply list_elem_of_further).
    apply list_elem_of_filter in Hin' as [Hne _]. done.
Qed.

Lemma queue_ids_NoDup_cons (a : Waiting.t) (rest : list Waiting.t) :
  NoDup (Waiting.user_id <$> a :: rest) → NoDup (Waiting.user_id <$> rest).
Proof. rewrite fmap_cons. apply NoDup_cons_1_2. Qed.

Lemma handle_join_queue_ids_NoDup e r st :
  User.is_authenticated (Request.current_user r) = true →
  NoDup (Waiting.user_id <$> waiting_queue st) →
  NoDup (Waiting.user_id <$> waiting_queue (fst (handle_join_queue e r st))).
Proof.
  intros Ha Hnd. rewrite handle_join_queue_queue by done.
  pose proof (without_user_ids_NoDup (User.id (Request.current_user r))
                (waiting_queue st) Hnd) as Hnd'.
  destruct (without_user _ _) as [|a rest].
  - apply NoDup_singleton.
  - by apply (queue_ids_NoDup_cons a).
Qed.

Lemma step_ids_NoDup l st st' :
  step_fun l st = Some st' →
  NoDup (Waiting.user_id <$> waiting_queue st) →
  NoDup (Waiting.user_id <$> waiting_queue st').
Proof.
  destruct l as [dt|r|r|r|e r|r|e r data|i|e i]; simpl; intros Hs Hq.
  - case_decide; simplify_eq. done.
  - simplify_eq. unfold handle_connect. by case_match.
  - simplify_eq. unfold handle_disconnect. case_match; simpl; [|done].
    by apply without_user_ids_NoDup.
  - simplify_eq. unfold logout. case_match; simpl; [|done].
    by apply without_user_ids_NoDup.
  - simplify_eq.
    destruct (User.is_authenticated (Request.current_user r)) eqn:Ha.
    + by apply handle_join_queue_ids_NoDup.
    + unfold handle_join_queue. by rewrite Ha.
  - simplify_eq. unfold handle_cancel_search. case_match; simpl; [|done].
    by apply without_user_ids_NoDup.
  - simplify_eq. unfold handle_end_session. case_match; simpl; [|done].
    repeat case_match; done.
  - unfold timer_wake in Hs. repeat case_match; simplify_eq. done.
  - unfold timer_run in Hs. repeat case_match; simplify_eq; simpl; try done.
    rewrite check_timeout_fallback_queue. by apply without_user_ids_NoDup.
Qed.

(** C5, as the code has it.  A handler or timer step that runs in one
    piece keeps the queue at one entry per user id, from any state that
    has it so; hence every state reached with the handlers run one at a
    time has at most one queue entry per user.  The join contributes this
    whatever the queue holds: run in one piece it first drops every entry
    of the joining user (line 222, the first line of the thread), so the
    only entry of that user afterwards is the one it has just appended. *)
Theorem queue_one_entry_per_user l st st' st0 e r :
  NoDup (Waiting.user_id <$> waiting_queue st) →
  step_fun l st = Some st' →
  User.is_authenticated (Request.current_user r) = true →
  NoDup (Waiting.user_id <$> waiting_queue st') ∧
  (∀ s, reachable s → NoDup (Waiting.user_id <$> waiting_queue s)) ∧
  (∀ u, u ∈ waiting_queue (fst (handle_join_queue e r st0)) →
        Waiting.user_id u = User.id (Request.current_user r) →
        u = Waiting.mk (User.id (Request.current_user r))
              (User.username (Request.current_user r)) (Request.sid r)
              (clock st0)) ∧
  join_line (JoinThread.mk e r at_222) st0 =
    (at_225,
     set_queue
       (without_user (User.id (Request.current_user r)) (waiting_queue st0))
       st0) ∧
  user_in_queue (User.id (Request.current_user r))
    (waiting_queue (snd (join_line (JoinThread.mk e r at_222) st0))) = false.
Proof.
  intros Hnd Hs Ha. split; [|split; [|split; [|split]]].
  - by apply (step_ids_NoDup l st).
  - intros s [ls Hr]. revert Hr.
    assert (NoDup (Waiting.user_id <$> waiting_queue initial)) as H0
      by constructor.
    revert H0. generalize initial.
    induction ls as [|l0 ls IH]; simpl; intros s0 H0 Hr.
    + by simplify_eq.
    + destruct (step_fun l0 s0) as [s1|] eqn:Hs1; [|done].
      apply (IH s1); [|done]. by apply (step_ids_NoDup l0 s0).
  - intros u. by apply handle_join_queue_own_entry.
  - done.
  - simpl. apply user_in_queue_without.
Qed.

(** C6, as the code has it.  The queue is first in, first out: entries
    appended one after the other leave through [popleft] in arrival order;
    line 274 appends at the tail of whatever the queue holds, in the
    handler run in one piece and in the thread alike; line 226 pops the
    head.  So a join that pairs takes the oldest entry that is not the
    joiner's own: with [a] at the head of the queue once the joiner's
    entries are dropped, both [matched] events and the session row name
    [a], and the entries behind [a] stay queued in their order. *)
Theorem fifo_pairing st e r a rest :
  User.is_authenticated (Request.current_user r) = true →
  without_user (User.id (Request.current_user r)) (waiting_queue st)
  = a :: rest →
  fresh (Env.token_urlsafe e) st →
  (∀ q es,
     popleft_many (length q + length es) (foldl append q es) = q ++ es) ∧
  (∀ r0 st0,
     waiting_queue (enqueue r0 st0)
     = waiting_queue st0 ++
         [Waiting.mk (User.id (Request.current_user r0))
            (User.username (Request.current_user r0)) (Request.sid r0)
            (clock st0)]) ∧
  (∀ e0 r0 st0,
     waiting_queue (snd (join_line (JoinThread.mk e0 r0 at_274) st0))
     = waiting_queue st0 ++
         [Waiting.mk (User.id (Request.current_user r0))
            (User.username (Request.current_user r0)) (Request.sid r0)
            (clock st0)]) ∧
  (∀ e0 r0 st0 b q,
     waiting_queue st0 = b :: q →
     join_line (JoinThread.mk e0 r0 at_226) st0
     = (at_233 b, set_queue q st0)) ∧
  handle_join_queue e r st = pair_with e r a (set_queue rest st) ∧
  waiting_queue (fst (handle_join_queue e r st)) = rest ∧
  emitted (fst (handle_join_queue e r st)) =
    emitted st ++
      [(Waiting.sid a,
        matched (Env.token_urlsafe e) (fst (room_for "room" e)) false
          (Some (User.username (Request.current_user r))));
       (Request.sid r,
        matched (Env.token_urlsafe e) (fst (room_for "room" e)) false
          (Some (Waiting.username a)))] ∧
  voice_session (fst (handle_join_queue e r st)) =
    voice_session st ++
      [VoiceSession.mk (Env.token_urlsafe e) (snd (room_for "room" e))
         (fst (room_for "room" e)) (Waiting.user_id a)
         (Some (User.id (Request.current_user r))) false "active" (clock st)
         None].
Proof.
  intros Ha Hq Hf.
  split; [apply popleft_many_app|].
  split; [done|]. split; [done|].
  split.
  { intros e0 r0 st0 b q Hq0. unfold join_line. simpl. by rewrite Hq0. }
  assert (handle_join_queue e r st = pair_with e r a (set_queue rest st))
    as Hj.
  { unfold handle_join_queue. rewrite Ha. simpl. by rewrite Hq. }
  split; [done|]. rewrite Hj.
  rewrite pair_with_fresh by done. simpl. done.
Qed.

(** C10: every [end_session] call of a logged-in user is answered with
    exactly one [session_ended] event to the caller, whether the session
    id is missing, empty, unknown, or names a session already ended. *)
Theorem end_session_always_notifies e r data st :
  User.is_authenticated (Request.current_user r) = true →
  emitted (handle_end_session e r data st)
  = emitted st ++ [(Request.sid r, session_ended)].
Proof.
  intros Ha. unfold handle_end_session. rewrite Ha.
  destruct (truthy data) as [k|]; [|done].
  by destruct (query_first k (voice_session st)) as [[i s]|].
Qed.

(** ** Ending a session *)

Lemma query_first_ended k tbl i s now :
  query_first k tbl = Some (i, s) →
  query_first k (<[i := end_row now s]> tbl) = Some (i, end_row now s).
Proof.
  unfold query_first. rewrite !list_find_Some.
  intros (Hl & HP & Hlt). split; [|split].
  - apply list_lookup_insert_eq. by eapply lookup_lt_Some.
  - done.
  - intros j y Hj Hji. rewrite list_lookup_insert_ne in Hj by lia. eauto.
Qed.

Lemma handle_end_session_found e r data k i s st :
  User.is_authenticated (Request.current_user r) = true →
  truthy data = Some k →
  query_first k (voice_session st) = Some (i, s) →
  handle_end_session e r data st =
  mkState (waiting_queue st) (base.delete k (active_sessions st))
    (<[i := end_row (clock st) s]> (voice_session st))
    (emitted st ++ [(Request.sid r, session_ended)])
    (daily st ++
       snd (delete_daily_room (Env.delete e) (VoiceSession.room_name s)))
    (tasks st) (clock st).
Proof.
  intros Ha Hd Hq. unfold handle_end_session. by rewrite Ha, Hd, Hq.
Qed.

Lemma release_count_app room cs cs' :
  release_count room (cs ++ cs')
  = release_count room cs + release_count room cs'.
Proof. unfold release_count. by rewrite List.filter_app, length_app. Qed.

Lemma delete_daily_room_calls answer room :
  DAILY_API_KEY ≠ "" →
  snd (delete_daily_room answer room) = [DELETE_rooms room].
Proof. intros Hk. unfold delete_daily_room. by rewrite decide_False. Qed.

(** C1, as the code has it: [end_session] never raises and, when the id
    is missing, empty or unknown, changes nothing (it only answers
    [session_ended]).  When the row exists, whatever its status, every
    call writes [status = 'ended'], stamps [ended_at] with the current
    time, asks Daily.co to delete the room and drops the
    [active_sessions] key: on a second call the status and the dict stay
    as they were, but [ended_at] is stamped again and the room release is
    requested again. *)
Theorem end_session_repeated e1 e2 r data k i s dt st :
  User.is_authenticated (Request.current_user r) = true →
  truthy data = Some k →
  query_first k (voice_session st) = Some (i, s) →
  (0 ≤ dt)%Z →
  let st1 := handle_end_session e1 r data st in
  let st2 := handle_end_session e2 r data (set_clock (clock st + dt) st1) in
  (∀ data',
     truthy data' = None ∨
     (∃ k', truthy data' = Some k' ∧
            query_first k' (voice_session st) = None) →
     handle_end_session e1 r data' st
     = emit_to (Request.sid r) session_ended st) ∧
  voice_session st1 = <[i := end_row (clock st) s]> (voice_session st) ∧
  active_sessions st1 = base.delete k (active_sessions st) ∧
  daily st1 =
    daily st ++
      snd (delete_daily_room (Env.delete e1) (VoiceSession.room_name s)) ∧
  voice_session st2 = <[i := end_row (clock st + dt) s]> (voice_session st) ∧
  active_sessions st2 = active_sessions st1 ∧
  daily st2 =
    daily st1 ++
      snd (delete_daily_room (Env.delete e2) (VoiceSession.room_name s)) ∧
  (DAILY_API_KEY ≠ "" →
   release_count (VoiceSession.room_name s) (daily st2)
   = 2 + release_count (VoiceSession.room_name s) (daily st)).
Proof.
  intros Ha Hd Hq Hdt st1 st2.
  assert (Hst1 := handle_end_session_found e1 r data k i s st Ha Hd Hq).
  fold st1 in Hst1.
  assert (query_first k (voice_session (set_clock (clock st + dt) st1))
          = Some (i, end_row (clock st) s)) as Hq1.
  { rewrite Hst1. simpl. by apply query_first_ended. }
  assert (Hst2 := handle_end_session_found e2 r data k i _ _ Ha Hd Hq1).
  fold st2 in Hst2.
  split.
  { intros data' [Hn|(k' & Hk' & Hn)]; unfold handle_end_session;
      rewrite Ha, ?Hn, ?Hk', ?Hn; done. }
  rewrite Hst2. simpl. rewrite Hst1. simpl.
  rewrite list_insert_insert_eq, delete_delete_eq.
  repeat split; try done.
  intros Hk. rewrite !release_count_app, !delete_daily_room_calls by done.
  unfold release_count; simpl. rewrite bool_decide_true by done. simpl. lia.
Qed.

Lemma create_daily_room_failed answer name :
  create_failed answer →
  fst (create_daily_room answer name) = (fallback_url name, name).
Proof.
  intros [->|[(c & b & -> & Hc)| ->]]; unfold create_daily_room;
    case_decide; simpl; try done.
  by rewrite decide_False.
Qed.



(** ** Timer tasks *)

Lemma run_app ls1 ls2 st :
  run (ls1 ++ ls2) st = run ls1 st ≫= run ls2.
Proof.
  revert st. induction ls1 as [|l ls1 IH]; intros st; simpl; [done|].
  by destruct (step_fun l st).
Qed.

Lemma run_tick dt ls st :
  (0 ≤ dt)%Z →
  run (Tick dt :: ls) st = run ls (set_clock (clock st + dt) st).
Proof. intros H. simpl. by rewrite decide_True. Qed.

Lemma check_timeout_fallback_set_tasks e uid sid ts st :
  fst (check_timeout_fallback e uid sid (set_tasks ts st))
  = set_tasks ts (fst (check_timeout_fallback e uid sid st)).
Proof.
  unfold check_timeout_fallback.
  destruct (create_daily_room _ _) as [[url name] calls]; simpl.
  destruct task_db_session; [|done]. by destruct (add_commit _ _).
Qed.

Lemma check_timeout_fallback_tasks e uid sid st :
  tasks (fst (check_timeout_fallback e uid sid st)) = tasks st.
Proof.
  unfold check_timeout_fallback.
  destruct (create_daily_room _ _) as [[url name] calls]; simpl.
  destruct task_db_session; [|done]. by destruct (add_commit _ _).
Qed.

Lemma check_timeout_tasks e uid sid st :
  tasks (fst (check_timeout e uid sid st)) = tasks st.
Proof.
  unfold check_timeout. case_match; [|done].
  apply check_timeout_fallback_tasks.
Qed.

Lemma set_pc_set_pc i p p' st : set_pc i p (set_pc i p' st) = set_pc i p st.
Proof.
  unfold set_pc, set_tasks; simpl. f_equal.
  rewrite list_alter_alter_eq. by apply list_alter_ext.
Qed.

(** A task that wakes and runs to its end with nothing in between is
    [check_timeout] run in one piece. *)
Lemma timer_atomic e i uid sid w st :
  tasks st !! i = Some (Task.mk uid sid (sleeping w)) →
  (w ≤ clock st)%Z →
  run [TimerWake i; TimerRun e i] st
  = Some (set_pc i finished (fst (check_timeout e uid sid st))).
Proof.
  intros Ht Hw. simpl. unfold timer_wake. rewrite Ht. simpl.
  rewrite decide_True by done. unfold timer_run. simpl.
  rewrite list_lookup_alter_eq, Ht. simpl. f_equal.
  unfold check_timeout.
  destruct (user_in_queue uid (waiting_queue st)).
  - fold (set_pc i (checked true) st). unfold set_pc at 2.
    rewrite check_timeout_fallback_set_tasks.
    unfold set_pc, set_tasks; simpl.
    rewrite check_timeout_fallback_tasks. f_equal.
    rewrite list_alter_alter_eq. by apply list_alter_ext.
  - apply set_pc_set_pc.
Qed.

Lemma check_timeout_absent e uid sid st :
  user_in_queue uid (waiting_queue st) = false →
  check_timeout e uid sid st = (st, Returned).
Proof. intros H. unfold check_timeout. by rewrite H. Qed.

Lemma timer_noop e i uid sid w st :
  tasks st !! i = Some (Task.mk uid sid (sleeping w)) →
  (w ≤ clock st)%Z →
  user_in_queue uid (waiting_queue st) = false →
  run [TimerWake i; TimerRun e i] st = Some (set_pc i finished st).
Proof.
  intros Ht Hw Hq. rewrite (timer_atomic e i uid sid w) by done.
  by rewrite check_timeout_absent.
Qed.

Lemma handle_join_queue_empty e r st :
  User.is_authenticated (Request.current_user r) = true →
  waiting_queue st = [] →
  handle_join_queue e r st =
  (mkState
     [Waiting.mk (User.id (Request.current_user r))
        (User.username (Request.current_user r)) (Request.sid r) (clock st)]
     (active_sessions st) (voice_session st)
     (emitted st ++ [(Request.sid r, waiting 1)]) (daily st)
     (tasks st ++
        [Task.mk (User.id (Request.current_user r)) (Request.sid r)
           (sleeping (clock st + 8))])
     (clock st),
   Returned).
Proof.
  intros Ha Hq. unfold handle_join_queue. by rewrite Ha, Hq.
Qed.

(** C7: a logged-in user who joins an empty queue is told [waiting] with
    position 1.  When a second logged-in user joins before the eight
    seconds are over (until then the first user's timer cannot wake), both
    get one [matched] event with [is_ai = False]: the first user's names
    the second, the second user's names the first. *)
Theorem scenario_pairing st e0 e r1 r2 dt :
  waiting_queue st = [] →
  User.is_authenticated (Request.current_user r1) = true →
  User.is_authenticated (Request.current_user r2) = true →
  User.id (Request.current_user r1) ≠ User.id (Request.current_user r2) →
  (0 ≤ dt < 8)%Z →
  fresh (Env.token_urlsafe e) st →
  let st1 := fst (handle_join_queue e0 r1 st) in
  emitted st1 = emitted st ++ [(Request.sid r1, waiting 1)] ∧
  run [Tick dt; TimerWake (length (tasks st))] st1 = None ∧
  ∃ st2,
    run [Tick dt; JoinQueue e r2] st1 = Some st2 ∧
    snd (handle_join_queue e r2 (set_clock (clock st1 + dt) st1)) = Returned ∧
    waiting_queue st2 = [] ∧
    emitted st2 =
      emitted st1 ++
        [(Request.sid r1,
          matched (Env.token_urlsafe e) (fst (room_for "room" e)) false
            (Some (User.username (Request.current_user r2))));
         (Request.sid r2,
          matched (Env.token_urlsafe e) (fst (room_for "room" e)) false
            (Some (User.username (Request.current_user r1))))].
Proof.
  intros Hq Ha1 Ha2 Hne Hdt Hf st1.
  assert (Hst1 := handle_join_queue_empty e0 r1 st Ha1 Hq).
  apply (f_equal fst) in Hst1. fold st1 in Hst1. simpl in Hst1.
  split; [by rewrite Hst1|].
  split.
  { rewrite run_tick by lia. simpl. unfold timer_wake. rewrite Hst1. simpl.
    rewrite list_lookup_middle by done. simpl.
    rewrite decide_False by lia. done. }
  rewrite run_tick by lia. simpl.
  eexists. split; [done|].
  unfold handle_join_queue. rewrite Ha2, Hst1. simpl.
  rewrite without_user_other by done. simpl.
  rewrite pair_with_fresh by done. simpl.
  rewrite <- app_assoc. done.
Qed.

(** X31: the fallback scenario where the task can use [db.session]: a
    logged-in user joins an empty queue and nobody else joins.  The timer
    cannot wake before eight units have passed; once they have, it removes
    the user's entry, adds a row and a dict entry with [is_ai] set and no
    second user, and the user's connection gets one [matched] event with
    [is_ai = True]. *)
Theorem scenario_fallback st e0 e r dt :
  task_db_session = true →
  waiting_queue st = [] →
  User.is_authenticated (Request.current_user r) = true →
  (8 ≤ dt)%Z →
  fresh (Env.token_urlsafe e) st →
  let i := length (tasks st) in
  let uid := User.id (Request.current_user r) in
  let st1 := fst (handle_join_queue e0 r st) in
  (∀ d, (0 ≤ d < 8)%Z → run [Tick d; TimerWake i] st1 = None) ∧
  ∃ st3,
    run [Tick dt; TimerWake i; TimerRun e i] st1 = Some st3 ∧
    waiting_queue st3 = [] ∧
    voice_session st3 =
      voice_session st ++
        [VoiceSession.mk (Env.token_urlsafe e) (snd (room_for "ai" e))
           (fst (room_for "ai" e)) uid None true "active" (clock st + dt)
           None] ∧
    active_sessions st3 =
      <[Env.token_urlsafe e :=
          ActiveSession.mk uid None (snd (room_for "ai" e))
            (fst (room_for "ai" e)) (clock st + dt) (Some true)]>
        (active_sessions st) ∧
    emitted st3 =
      emitted st ++
        [(Request.sid r, waiting 1);
         (Request.sid r,
          matched (Env.token_urlsafe e) (fst (room_for "ai" e)) true None)] ∧
    tasks st3 !! i = Some (Task.mk uid (Request.sid r) finished).
Proof.
  intros Hb Hq Ha Hdt Hf i uid st1.
  assert (Hst1 := handle_join_queue_empty e0 r st Ha Hq).
  apply (f_equal fst) in Hst1. fold st1 in Hst1. simpl in Hst1.
  split.
  { intros d Hd. rewrite run_tick by lia. simpl. unfold timer_wake.
    rewrite Hst1. simpl. rewrite list_lookup_middle by done. simpl.
    rewrite decide_False by lia. done. }
  rewrite run_tick by lia.
  rewrite (timer_atomic e i uid (Request.sid r) (clock st + 8)); cycle 1.
  { rewrite Hst1. simpl. by rewrite list_lookup_middle. }
  { rewrite Hst1. simpl. lia. }
  eexists. split; [done|].
  unfold check_timeout. rewrite Hst1. simpl.
  rewrite bool_decide_true by done. simpl.
  rewrite check_timeout_fallback_fresh by done. simpl.
  unfold without_user. rewrite filter_cons_False by (simpl; tauto).
  rewrite filter_nil, <- app_assoc.
  repeat split; try done.
  rewrite list_lookup_alter_eq, list_lookup_middle by done. done.
Qed.

(** C8 fails on the code as it starts the task.  A logged-in user joins an
    empty queue and nobody else joins.  The timer cannot wake before eight
    units have passed.  Once they have, on a library where the task's
    thread cannot use [db.session] (the task is started without the
    [app.app_context()] that [migrate_database] takes), the task removes
    the user's entry and requests the room, then [db.session.add] raises:
    no row and no dict entry are added and no [matched] event is sent.
    The user has left the queue with only the [waiting] event. *)
Theorem scenario_fallback_raises st e0 e r dt :
  task_db_session = false →
  waiting_queue st = [] →
  User.is_authenticated (Request.current_user r) = true →
  (8 ≤ dt)%Z →
  let i := length (tasks st) in
  let uid := User.id (Request.current_user r) in
  let st1 := fst (handle_join_queue e0 r st) in
  (∀ d, (0 ≤ d < 8)%Z → run [Tick d; TimerWake i] st1 = None) ∧
  snd (check_timeout e uid (Request.sid r) (set_clock (clock st1 + dt) st1))
  = RuntimeError ∧
  ∃ st3,
    run [Tick dt; TimerWake i; TimerRun e i] st1 = Some st3 ∧
    waiting_queue st3 = [] ∧
    voice_session st3 = voice_session st ∧
    active_sessions st3 = active_sessions st ∧
    emitted st3 = emitted st ++ [(Request.sid r, waiting 1)] ∧
    daily st3 =
      daily st ++
        snd (create_daily_room (Env.post e) ("ai" +:+ Env.token_hex e)) ∧
    tasks st3 !! i = Some (Task.mk uid (Request.sid r) finished).
Proof.
  intros Hb Hq Ha Hdt i uid st1.
  assert (Hst1 := handle_join_queue_empty e0 r st Ha Hq).
  apply (f_equal fst) in Hst1. fold st1 in Hst1. simpl in Hst1.
  split.
  { intros d Hd. rewrite run_tick by lia. simpl. unfold timer_wake.
    rewrite Hst1. simpl. rewrite list_lookup_middle by done. simpl.
    rewrite decide_False by lia. done. }
  assert (check_timeout e uid (Request.sid r)
            (set_clock (clock st1 + dt) st1)
          = check_timeout_fallback e uid (Request.sid r)
              (set_clock (clock st1 + dt) st1)) as Hct.
  { unfold check_timeout. rewrite Hst1. simpl.
    by rewrite bool_decide_true by done. }
  split.
  { rewrite Hct. by rewrite check_timeout_fallback_raises. }
  rewrite run_tick by lia.
  rewrite (timer_atomic e i uid (Request.sid r) (clock st + 8)); cycle 1.
  { rewrite Hst1. simpl. by rewrite list_lookup_middle. }
  { rewrite Hst1. simpl. lia. }
  eexists. split; [done|].
  rewrite Hct, check_timeout_fallback_raises by done.
  rewrite Hst1. simpl.
  unfold without_user. rewrite filter_cons_False by (simpl; tauto).
  rewrite filter_nil.
  repeat split; try done.
  rewrite list_lookup_alter_eq, list_lookup_middle by done. done.
Qed.

(** ** The timeout against a join, and stale timers *)

Lemma matched_count_app sid l l' :
  matched_count sid (l ++ l') = matched_count sid l + matched_count sid l'.
Proof. unfold matched_count. by rewrite List.filter_app, length_app. Qed.

Lemma pair_with_clock e r p st :
  clock (fst (pair_with e r p st)) = clock st.
Proof.
  unfold pair_with.
  destruct (create_daily_room _ _) as [[url name] calls]; simpl.
  by destruct (add_commit _ _).
Qed.

Lemma handle_join_queue_pairs e r a st :
  User.is_authenticated (Request.current_user r) = true →
  waiting_queue st = [a] →
  Waiting.user_id a ≠ User.id (Request.current_user r) →
  handle_join_queue e r st = pair_with e r a (set_queue [] st).
Proof.
  intros Ha Hq Hne. unfold handle_join_queue. rewrite Ha, Hq. simpl.
  by rewrite without_user_other.
Qed.

(** C2, as the code has it: take a queued entry [a], its sleeping timer
    task, due, and a join by another logged-in user.  When the timer's
    membership test and the rest of its body run with nothing in between,
    the two orders of the join and the timer never give both outcomes.
    Join first: the two users are paired, and the timer then finds nothing
    to do and sends no request.  Timer first: the entry is removed and the
    joiner is queued, not paired; a session is added for the entry only if
    the fallback goes through, and then it is the fallback one.  Either
    way the connection of [a] receives at most one [matched] event. *)
Theorem timeout_race_atomic st a e1 e2 r i w :
  waiting_queue st = [a] →
  tasks st !! i
    = Some (Task.mk (Waiting.user_id a) (Waiting.sid a) (sleeping w)) →
  (w ≤ clock st)%Z →
  User.is_authenticated (Request.current_user r) = true →
  Waiting.user_id a ≠ User.id (Request.current_user r) →
  Request.sid r ≠ Waiting.sid a →
  fresh (Env.token_urlsafe e1) st →
  fresh (Env.token_urlsafe e2) st →
  (∃ st',
     run [JoinQueue e1 r; TimerWake i; TimerRun e2 i] st = Some st' ∧
     waiting_queue st' = [] ∧
     emitted st' =
       emitted st ++
         [(Waiting.sid a,
           matched (Env.token_urlsafe e1) (fst (room_for "room" e1)) false
             (Some (User.username (Request.current_user r))));
          (Request.sid r,
           matched (Env.token_urlsafe e1) (fst (room_for "room" e1)) false
             (Some (Waiting.username a)))] ∧
     voice_session st' =
       voice_session st ++
         [VoiceSession.mk (Env.token_urlsafe e1) (snd (room_for "room" e1))
            (fst (room_for "room" e1)) (Waiting.user_id a)
            (Some (User.id (Request.current_user r))) false "active"
            (clock st) None] ∧
     daily st' =
       daily st ++
         snd (create_daily_room (Env.post e1) ("room" +:+ Env.token_hex e1)) ∧
     matched_count (Waiting.sid a) (emitted st')
     = S (matched_count (Waiting.sid a) (emitted st))) ∧
  (∃ st',
     run [TimerWake i; TimerRun e2 i; JoinQueue e1 r] st = Some st' ∧
     waiting_queue st' =
       [Waiting.mk (User.id (Request.current_user r))
          (User.username (Request.current_user r)) (Request.sid r)
          (clock st)] ∧
     emitted st' =
       emitted st ++
         (if task_db_session
          then [(Waiting.sid a,
                 matched (Env.token_urlsafe e2) (fst (room_for "ai" e2)) true
                   None)]
          else []) ++
         [(Request.sid r, waiting 1)] ∧
     voice_session st' =
       voice_session st ++
         (if task_db_session
          then [VoiceSession.mk (Env.token_urlsafe e2)
                  (snd (room_for "ai" e2)) (fst (room_for "ai" e2))
                  (Waiting.user_id a) None true "active" (clock st) None]
          else []) ∧
     matched_count (Waiting.sid a) (emitted st')
     ≤ S (matched_count (Waiting.sid a) (emitted st))).
Proof.
  intros Hq Ht Hw Ha Hne Hsid Hf1 Hf2. split.
  - change (run [JoinQueue e1 r; TimerWake i; TimerRun e2 i] st)
      with (run [TimerWake i; TimerRun e2 i] (fst (handle_join_queue e1 r st))).
    rewrite (handle_join_queue_pairs e1 r a) by done.
    rewrite pair_with_fresh by done. simpl fst.
    rewrite (timer_noop e2 i (Waiting.user_id a) (Waiting.sid a) w)
      by done.
    eexists. split; [done|]. simpl.
    split; [done|]. split; [done|]. split; [done|]. split; [done|].
    rewrite matched_count_app. unfold matched_count at 2. simpl.
    rewrite bool_decide_true by done. simpl.
    rewrite bool_decide_false by done. simpl. lia.
  - change [TimerWake i; TimerRun e2 i; JoinQueue e1 r]
      with ([TimerWake i; TimerRun e2 i] ++ [JoinQueue e1 r]).
    rewrite run_app.
    rewrite (timer_atomic e2 i (Waiting.user_id a) (Waiting.sid a) w)
      by done.
    unfold check_timeout. rewrite Hq. simpl user_in_queue.
    rewrite bool_decide_true by done. simpl orb. cbv iota.
    destruct task_db_session eqn:Hb.
    + rewrite check_timeout_fallback_fresh by done. rewrite Hq.
      unfold without_user. rewrite filter_cons_False by (simpl; tauto).
      rewrite filter_nil. simpl.
      unfold handle_join_queue. rewrite Ha. simpl.
      eexists. split; [done|]. simpl. rewrite <- app_assoc. simpl.
      split; [done|]. split; [done|]. split; [done|].
      rewrite matched_count_app. unfold matched_count at 2. simpl.
      rewrite bool_decide_true by done. simpl.
      rewrite bool_decide_false by done. simpl. lia.
    + rewrite check_timeout_fallback_raises by done. rewrite Hq.
      unfold without_user. rewrite filter_cons_False by (simpl; tauto).
      rewrite filter_nil. simpl.
      unfold handle_join_queue. rewrite Ha. simpl.
      eexists. split; [done|]. simpl.
      split; [done|]. split; [done|]. split; [by rewrite app_nil_r|].
      rewrite matched_count_app. unfold matched_count at 2. simpl.
      rewrite bool_decide_false by done. simpl. lia.
Qed.

(** C3, as the code has it: no handler cancels a timer task; cancel,
    disconnect, logout and pairing leave [tasks] as it is.  What protects
    a consumed entry is the membership test of [check_timeout]: a task
    that wakes when no entry of its user is queued does nothing.  So the
    task of a user who cancelled, disconnected, logged out or was paired,
    when it wakes next with nothing in between, changes only its own
    program counter. *)
Theorem stale_timer_without_entry st e uid sid i w dt :
  tasks st !! i = Some (Task.mk uid sid (sleeping w)) →
  (0 ≤ dt)%Z →
  (w ≤ clock st + dt)%Z →
  (∀ st0 sid0,
     user_in_queue uid (waiting_queue st0) = false →
     check_timeout e uid sid0 st0 = (st0, Returned)) ∧
  (∀ r,
     User.is_authenticated (Request.current_user r) = true →
     User.id (Request.current_user r) = uid →
     tasks (handle_cancel_search r st) = tasks st ∧
     tasks (handle_disconnect r st) = tasks st ∧
     tasks (logout r st) = tasks st ∧
     run [CancelSearch r; Tick dt; TimerWake i; TimerRun e i] st
     = Some (set_pc i finished
               (set_clock (clock st + dt) (handle_cancel_search r st))) ∧
     run [Disconnect r; Tick dt; TimerWake i; TimerRun e i] st
     = Some (set_pc i finished
               (set_clock (clock st + dt) (handle_disconnect r st))) ∧
     run [Logout r; Tick dt; TimerWake i; TimerRun e i] st
     = Some (set_pc i finished
               (set_clock (clock st + dt) (logout r st)))) ∧
  (∀ e' r a,
     User.is_authenticated (Request.current_user r) = true →
     waiting_queue st = [a] →
     Waiting.user_id a = uid →
     User.id (Request.current_user r) ≠ uid →
     tasks (fst (handle_join_queue e' r st)) = tasks st ∧
     run [JoinQueue e' r; Tick dt; TimerWake i; TimerRun e i] st
     = Some (set_pc i finished
               (set_clock (clock st + dt) (fst (handle_join_queue e' r st))))).
Proof.
  intros Ht Hdt Hw.
  split; [intros st0 sid0; apply check_timeout_absent|].
  split.
  - intros r Ha <-.
    unfold handle_cancel_search, handle_disconnect, logout. rewrite Ha.
    repeat (split; [done|]).
    repeat split.
    + change (run (CancelSearch r :: ?ls) st)
        with (run ls (handle_cancel_search r st)).
      unfold handle_cancel_search. rewrite Ha.
      rewrite run_tick by done.
      apply (timer_noop e i (User.id (Request.current_user r)) sid w);
        simpl; [done|lia|].
      apply user_in_queue_without.
    + change (run (Disconnect r :: ?ls) st)
        with (run ls (handle_disconnect r st)).
      unfold handle_disconnect. rewrite Ha.
      rewrite run_tick by done.
      apply (timer_noop e i (User.id (Request.current_user r)) sid w);
        simpl; [done|lia|].
      apply user_in_queue_without.
    + change (run (Logout r :: ?ls) st) with (run ls (logout r st)).
      unfold logout. rewrite Ha.
      rewrite run_tick by done.
      apply (timer_noop e i (User.id (Request.current_user r)) sid w);
        simpl; [done|lia|].
      apply user_in_queue_without.
  - intros e' r a Ha Hq Hu Hne.
    change (run (JoinQueue e' r :: ?ls) st)
      with (run ls (fst (handle_join_queue e' r st))).
    rewrite (handle_join_queue_pairs e' r a) by congruence.
    rewrite pair_with_tasks. split; [done|].
    rewrite run_tick by done. rewrite pair_with_clock. simpl clock.
    apply (timer_noop e i uid sid w); simpl.
    + by rewrite pair_with_tasks.
    + lia.
    + by rewrite pair_with_queue.
Qed.

(** ** Queue membership against session membership *)

Lemma user_in_queue_absent uid (q : list Waiting.t) :
  uid ∉ (Waiting.user_id <$> q) → user_in_queue uid q = false.
Proof.
  intros Hn. apply not_true_is_false. rewrite user_in_queue_spec.
  intros (u & Hin & <-). apply Hn. by apply list_elem_of_fmap_2.
Qed.

(** C4, as the code has it: joining never looks at [active_sessions], so
    nothing keeps a participant of a session out of the queue later.  What
    holds is narrower.  Take any state whose queue has at most one entry
    per user, and a handler or timer that runs in one piece, with no other
    handler between its lines: right after it has put a session into
    [active_sessions] (a pairing or a timeout fallback), none of that
    session's participants is queued. *)
Theorem new_session_participants_not_queued l st st' k s uid :
  NoDup (Waiting.user_id <$> waiting_queue st) →
  step_fun l st = Some st' →
  active_sessions st' !! k = Some s →
  active_sessions st !! k ≠ Some s →
  participant uid s →
  user_in_queue uid (waiting_queue st') = false.
Proof.
  intros Hnd Hs Hk Hnk Hp.
  destruct l as [dt|r|r|r|e r|r|e r data|i|e i]; simpl in Hs.
  - case_decide; by simplify_eq.
  - simplify_eq. unfold handle_connect in Hk. by case_match.
  - simplify_eq. unfold handle_disconnect in Hk. by case_match.
  - simplify_eq. unfold logout in Hk. by case_match.
  - simplify_eq. unfold handle_join_queue in *.
    destruct (User.is_authenticated (Request.current_user r)); [|done].
    simpl in *.
    pose proof (without_user_ids_NoDup (User.id (Request.current_user r))
                  (waiting_queue st) Hnd) as Hnd'.
    destruct (without_user _ _) as [|a rest] eqn:Hq; simpl in *; [done|].
    rewrite pair_with_queue. simpl.
    unfold pair_with in Hk.
    destruct (create_daily_room _ _) as [[url name] calls]; simpl in Hk.
    destruct (add_commit _ _); simpl in Hk; [|done].
    apply lookup_insert_Some in Hk as [[_ <-]|[_ Hk]]; [|done].
    destruct Hp as [<-|Hp]; simpl in *.
    + apply user_in_queue_absent. by apply NoDup_cons_1_1 in Hnd'.
    + simplify_eq. apply not_true_is_false. rewrite user_in_queue_spec.
      intros (u & Hin & Hu).
      assert (u ∈ without_user (User.id (Request.current_user r))
                    (waiting_queue st)) as Hin'
        by (rewrite Hq; by apply list_elem_of_further).
      unfold without_user in Hin'.
      apply list_elem_of_filter in Hin' as [Hne _]. done.
  - simplify_eq. unfold handle_cancel_search in Hk. by case_match.
  - simplify_eq. unfold handle_end_session in Hk.
    repeat case_match; simpl in Hk; try done.
    by apply lookup_delete_Some in Hk as [_ Hk].
  - unfold timer_wake in Hs. repeat case_match; by simplify_eq.
  - unfold timer_run in Hs. repeat case_match; simplify_eq; simpl in *;
      try done.
    rewrite check_timeout_fallback_queue.
    unfold check_timeout_fallback in Hk.
    destruct (create_daily_room _ _) as [[url name] calls]; simpl in Hk.
    destruct task_db_session; [|done].
    destruct (add_commit _ _); simpl in Hk; [|done].
    apply lookup_insert_Some in Hk as [[_ <-]|[_ Hk]]; [|done].
    destruct Hp as [<-|Hp]; simpl in *; [|done].
    apply user_in_queue_without.
Qed.

(** * Further properties of the engine *)

(** ** The effect of one transition *)

Lemma without_user_elem uid u q :
  u ∈ without_user uid q ↔ Waiting.user_id u ≠ uid ∧ u ∈ q.
Proof. unfold without_user. by rewrite list_elem_of_filter. Qed.

Lemma pair_with_effect e r p st :
  Waiting.user_id p ≠ User.id (Request.current_user r) →
  effect st (fst (pair_with e r p st)).
Proof.
  intros Hne. unfold pair_with.
  destruct (create_daily_room _ _) as [[url name] calls]; simpl.
  destruct (add_commit _ _) as [tbl|] eqn:Hc; simpl.
  - eapply effect_created with (evs := [_; _]); simpl;
      [exact Hc|reflexivity|..].
    + by repeat split.
    + repeat split; simpl; try done. congruence.
    + done.
    + by rewrite <- app_assoc.
    + repeat constructor; by eexists.
  - by apply (effect_quiet _ _ []); simpl; rewrite ?app_nil_r.
Qed.

Lemma check_timeout_fallback_effect e uid sid st :
  effect st (fst (check_timeout_fallback e uid sid st)).
Proof.
  unfold check_timeout_fallback.
  destruct (create_daily_room _ _) as [[url name] calls]; simpl.
  destruct task_db_session;
    [|by apply (effect_quiet _ _ []); simpl; rewrite ?app_nil_r].
  destruct (add_commit _ _) as [tbl|] eqn:Hc; simpl.
  - eapply effect_created; simpl; [exact Hc|reflexivity|..|reflexivity|].
    + by repeat split.
    + by repeat split.
    + done.
    + repeat constructor; by eexists.
  - by apply (effect_quiet _ _ []); simpl; rewrite ?app_nil_r.
Qed.

Lemma effect_same st st' :
  voice_session st' = voice_session st →
  active_sessions st' = active_sessions st →
  emitted st' = emitted st →
  effect st st'.
Proof. intros. by apply (effect_quiet _ _ []); rewrite ?app_nil_r. Qed.

Lemma effect_from st0 st st' :
  voice_session st0 = voice_session st →
  active_sessions st0 = active_sessions st →
  emitted st0 = emitted st →
  clock st0 = clock st →
  effect st0 st' → effect st st'.
Proof.
  intros Hv Ha He Hc
    [evs H1 H2 H3 H4|row a evs H1 H2 H3 H4 H5 H6 H7|k j row sid H1 H2 H3 H4];
    rewrite ?Hv, ?Ha, ?He, ?Hc in *.
  - by apply (effect_quiet _ _ evs).
  - by apply (effect_created _ _ row a evs).
  - by apply (effect_ended _ _ k j row sid).
Qed.

Lemma effect_to st st1 st' :
  voice_session st' = voice_session st1 →
  active_sessions st' = active_sessions st1 →
  emitted st' = emitted st1 →
  effect st st1 → effect st st'.
Proof.
  intros Hv Ha He
    [evs H1 H2 H3 H4|row a evs H1 H2 H3 H4 H5 H6 H7|k j row sid H1 H2 H3 H4];
    rewrite <- ?Hv, <- ?Ha, <- ?He in *.
  - by apply (effect_quiet _ _ evs).
  - by apply (effect_created _ _ row a evs).
  - by apply (effect_ended _ _ k j row sid).
Qed.

Lemma step_effect l st st' : step_fun l st = Some st' → effect st st'.
Proof.
  destruct l as [dt|r|r|r|e r|r|e r data|i|e i]; simpl; intros Hs.
  - case_decide; simplify_eq. by apply effect_same.
  - simplify_eq. unfold handle_connect. case_match; [|by apply effect_same].
    eapply (effect_quiet _ _ [_]); try done.
    by repeat constructor.
  - simplify_eq. unfold handle_disconnect. case_match; by apply effect_same.
  - simplify_eq. unfold logout. case_match; by apply effect_same.
  - simplify_eq. unfold handle_join_queue.
    case_match; [|by apply effect_same]. simpl.
    destruct (without_user _ _) as [|a rest] eqn:Hq; simpl.
    + apply (effect_quiet _ _ [(Request.sid r, waiting 1)]); try done.
      by repeat constructor.
    + assert (a ∈ without_user (User.id (Request.current_user r))
                    (waiting_queue st)) as Hin
        by (rewrite Hq; apply list_elem_of_here).
      apply without_user_elem in Hin as [Hne _].
      eapply effect_from; [..|by apply (pair_with_effect e r a)]; done.
  - simplify_eq. unfold handle_cancel_search.
    case_match; [|by apply effect_same].
    apply (effect_quiet _ _ [(Request.sid r, search_cancelled)]); try done.
    by repeat constructor.
  - simplify_eq. unfold handle_end_session.
    case_match; [|by apply effect_same].
    destruct (truthy data) as [k|].
    + destruct (query_first k (voice_session st)) as [[i s]|] eqn:Hq.
      * by eapply (effect_ended _ _ k i s).
      * apply (effect_quiet _ _ [(Request.sid r, session_ended)]); try done.
        by repeat constructor.
    + apply (effect_quiet _ _ [(Request.sid r, session_ended)]); try done.
      by repeat constructor.
  - unfold timer_wake in Hs. repeat case_match; simplify_eq.
    by apply effect_same.
  - unfold timer_run in Hs. repeat case_match; simplify_eq.
    + eapply effect_to; [..|apply check_timeout_fallback_effect]; done.
    + by apply effect_same.
Qed.

(** ** Invariants of the table, the dict and the events *)

Lemma reachable_initial : reachable initial.
Proof. by exists []. Qed.

Lemma reachable_invariant (P : state → Prop) :
  P initial →
  (∀ l st st',
     reachable st → P st → step_fun l st = Some st' → P st') →
  ∀ st, reachable st → P st.
Proof.
  intros H0 Hstep st [ls Hr].
  assert (∀ ls s0, reachable s0 → P s0 → run ls s0 = Some st → P st)
    as Hgen.
  { clear ls Hr. induction ls as [|l ls IH]; simpl; intros s0 Hr0 HP Hr.
    - by simplify_eq.
    - destruct (step_fun l s0) as [s1|] eqn:Hs; [|done].
      apply (IH s1); [by eapply reachable_step|by eapply Hstep|done]. }
  by apply (Hgen ls initial); [apply reachable_initial|..].
Qed.

Lemma add_commit_Some row tbl tbl' :
  add_commit row tbl = Some tbl' →
  tbl' = tbl ++ [row] ∧
  VoiceSession.session_id row ∉ (VoiceSession.session_id <$> tbl).
Proof.
  unfold add_commit, query_first.
  destruct (list_find _ tbl) as [[i x]|] eqn:Hf; [done|].
  intros ?; simplify_eq. split; [done|].
  apply list_find_None in Hf. rewrite list_elem_of_fmap.
  intros (x & Hid & Hx). rewrite Forall_forall in Hf. by apply (Hf x).
Qed.

Lemma query_first_Some k tbl i row :
  query_first k tbl = Some (i, row) →
  tbl !! i = Some row ∧ VoiceSession.session_id row = k.
Proof. unfold query_first. rewrite list_find_Some. by intros (? & ? & _). Qed.

Lemma ids_end_row (tbl : list VoiceSession.t) (i : nat) row t :
  tbl !! i = Some row →
  VoiceSession.session_id <$> <[i := end_row t row]> tbl
  = VoiceSession.session_id <$> tbl.
Proof.
  intros Hi. rewrite list_fmap_insert. simpl.
  apply list_insert_id. by rewrite list_lookup_fmap, Hi.
Qed.

Lemma effect_registry st st' :
  effect st st' → registry_consistent st → registry_consistent st'.
Proof.
  intros [evs H1 H2 H3 H4|row a evs H1 H2 H3 H4 H5 H6 H7
         |k j row sid H1 H2 H3 H4]
    [Hnd Hreg]; unfold registry_consistent.
  - by rewrite H1, H2.
  - apply add_commit_Some in H1 as [-> Hfresh]. rewrite H2. split.
    + rewrite fmap_app. apply NoDup_app. split; [done|]. split.
      * intros x Hx Hx'. apply list_elem_of_singleton in Hx'. by subst.
      * apply NoDup_singleton.
    + intros k a' Hk. apply lookup_insert_Some in Hk as [[<- <-]|[Hne Hk]].
      * exists (length (voice_session st)), row.
        split; [by apply list_lookup_middle|done].
      * destruct (Hreg k a' Hk) as (i & row' & Hi & Hag).
        exists i, row'. split; [|done]. by apply lookup_app_l_Some.
  - apply query_first_Some in H1 as [Hj Hid]. rewrite H2, H3. split.
    + by rewrite ids_end_row.
    + intros k' a' Hk. apply lookup_delete_Some in Hk as [Hne Hk].
      destruct (Hreg k' a' Hk) as (i & row' & Hi & Hag).
      exists i, row'. split; [|done].
      rewrite list_lookup_insert_ne; [done|].
      intros ->. destruct Hag as [Hag _]. congruence.
Qed.

Lemma reachable_registry st : reachable st → registry_consistent st.
Proof.
  apply reachable_invariant.
  - split; [constructor|]. intros k a Hk. simpl in Hk.
    by rewrite lookup_empty in Hk.
  - intros l s s' _ HP Hs. eapply effect_registry; [|done].
    by eapply step_effect.
Qed.

(** X1: in every reachable state the session ids of the table are
    pairwise distinct. *)
Theorem session_ids_unique st :
  reachable st → NoDup (VoiceSession.session_id <$> voice_session st).
Proof. intros Hr. by apply reachable_registry. Qed.

(** X2: in every reachable state each entry of [active_sessions] has a
    row in the table with the same session id, participants and room, and
    a query by the session id finds that row: line 247 and line 313 insert
    the entry after the row is committed, and no row is ever deleted. *)
Theorem active_sessions_have_rows st k a :
  reachable st →
  active_sessions st !! k = Some a →
  ∃ i row,
    voice_session st !! i = Some row ∧
    query_first k (voice_session st) = Some (i, row) ∧
    VoiceSession.session_id row = k ∧
    VoiceSession.user1_id row = ActiveSession.user1_id a ∧
    VoiceSession.user2_id row = ActiveSession.user2_id a ∧
    VoiceSession.room_name row = ActiveSession.room_name a ∧
    VoiceSession.room_url row = ActiveSession.room_url a.
Proof.
  intros Hr Hk. destruct (reachable_registry st Hr) as [Hnd Hreg].
  destruct (Hreg k a Hk) as (i & row & Hi & Hag).
  exists i, row. split; [done|]. split.
  - unfold query_first. apply list_find_Some.
    split; [done|]. split; [by destruct Hag|].
    intros j y Hj Hlt Hy.
    assert ((VoiceSession.session_id <$> voice_session st) !! i = Some k)
      as Hi'.
    { rewrite list_lookup_fmap, Hi. simpl. by destruct Hag as [-> _]. }
    assert ((VoiceSession.session_id <$> voice_session st) !! j = Some k)
      as Hj'.
    { by rewrite list_lookup_fmap, Hj; simpl; rewrite Hy. }
    pose proof (NoDup_lookup _ _ _ _ Hnd Hi' Hj'). lia.
  - by destruct Hag as (? & ? & ? & ? & ? & _).
Qed.

Lemma end_row_ok t row : row_ok row → row_ok (end_row t row).
Proof.
  intros (_ & H2 & H3). split; [|done]. right. split; [done|]. by exists t.
Qed.

Lemma effect_rows_ok st st' :
  effect st st' →
  Forall row_ok (voice_session st) → Forall row_ok (voice_session st').
Proof.
  intros [evs H1 H2 H3 H4|row a evs H1 H2 H3 H4 H5 H6 H7
         |k j row sid H1 H2 H3 H4]
    Hok.
  - by rewrite H1.
  - apply add_commit_Some in H1 as [-> _]. apply Forall_app. split; [done|].
    apply Forall_singleton. destruct H4 as (Hs & He & Hu & Hai).
    split; [by left|done].
  - apply query_first_Some in H1 as [Hj _]. rewrite H2.
    apply Forall_insert; [done|]. apply end_row_ok.
    rewrite Forall_forall in Hok. apply Hok.
    by eapply list_elem_of_lookup_2.
Qed.

Lemma reachable_rows_ok st : reachable st → Forall row_ok (voice_session st).
Proof.
  revert st.
  apply (reachable_invariant (λ s, Forall row_ok (voice_session s)));
    [constructor|].
  intros l s s' _ HP Hs. eapply effect_rows_ok; [|done]. by eapply step_effect.
Qed.

(** X3: in every reachable state a row is either active with no
    [ended_at], or ended with an [ended_at]; no other status occurs. *)
Theorem rows_status_well_formed st row :
  reachable st → row ∈ voice_session st → row_well_formed row.
Proof.
  intros Hr Hin. pose proof (reachable_rows_ok st Hr) as Hok.
  rewrite Forall_forall in Hok. by destruct (Hok row Hin).
Qed.

(** X4: the sessions flagged [is_ai_session] are exactly those with no
    second user, in every reachable state; and a join run in one piece
    never pairs a user with themselves, whatever the queue holds: line 222
    has dropped the joiner's own entries before line 226 takes the partner,
    so every row the join adds has the joiner as second user and somebody
    else as first. *)
Theorem no_self_pairing st st0 e r row row0 :
  reachable st →
  row ∈ voice_session st →
  User.is_authenticated (Request.current_user r) = true →
  row0 ∈ voice_session (fst (handle_join_queue e r st0)) →
  row0 ∉ voice_session st0 →
  (VoiceSession.is_ai_session row = true ↔
   VoiceSession.user2_id row = None) ∧
  VoiceSession.user2_id row0 = Some (User.id (Request.current_user r)) ∧
  VoiceSession.user1_id row0 ≠ User.id (Request.current_user r) ∧
  VoiceSession.is_ai_session row0 = false ∧
  ∃ p,
    p ∈ waiting_queue st0 ∧ VoiceSession.user1_id row0 = Waiting.user_id p.
Proof.
  intros Hr Hin Ha Hin0 Hnew. split.
  { pose proof (reachable_rows_ok st Hr) as Hok.
    rewrite Forall_forall in Hok. by destruct (Hok row Hin) as (_ & _ & ?). }
  unfold handle_join_queue in Hin0. rewrite Ha in Hin0. simpl in Hin0.
  destruct (without_user _ _) as [|p rest] eqn:Hq; [done|].
  assert (p ∈ without_user (User.id (Request.current_user r))
                (waiting_queue st0)) as Hp
    by (rewrite Hq; apply list_elem_of_here).
  apply list_elem_of_filter in Hp as [Hne Hp].
  unfold pair_with in Hin0.
  destruct (create_daily_room _ _) as [[url name] calls].
  simpl in Hin0.
  destruct (add_commit _ _) as [tbl|] eqn:Hadd; [|done].
  apply add_commit_Some in Hadd as [-> _]. simpl in Hin0.
  apply elem_of_app in Hin0 as [Hold|Hrow]; [done|].
  apply list_elem_of_singleton in Hrow as ->. simpl.
  split; [done|]. split; [done|]. split; [done|]. by exists p.
Qed.

(** ** Events *)

Lemma event_ok_mono tbl tbl' ev :
  (∀ row, row ∈ tbl →
     ∃ row', row' ∈ tbl' ∧
       VoiceSession.session_id row' = VoiceSession.session_id row ∧
       VoiceSession.room_url row' = VoiceSession.room_url row ∧
       VoiceSession.is_ai_session row' = VoiceSession.is_ai_session row) →
  event_ok tbl ev → event_ok tbl' ev.
Proof.
  intros Hm [Hq|(row & Hin & p & Hev)]; [by left|right].
  destruct (Hm row Hin) as (row' & Hin' & Hid & Hurl & Hai).
  exists row'. split; [done|]. exists p. by rewrite Hid, Hurl, Hai.
Qed.

Lemma effect_events_ok st st' :
  effect st st' →
  Forall (event_ok (voice_session st)) (emitted st) →
  Forall (event_ok (voice_session st')) (emitted st').
Proof.
  intros [evs H1 H2 H3 H4|row a evs H1 H2 H3 H4 H5 H6 H7
         |k j row sid H1 H2 H3 H4]
    Hok.
  - rewrite H1, H3. apply Forall_app. split; [done|].
    eapply Forall_impl; [exact H4|]. intros ev Hq. by left.
  - apply add_commit_Some in H1 as [-> _]. rewrite H6.
    apply Forall_app. split.
    + eapply Forall_impl; [exact Hok|]. intros ev.
      apply event_ok_mono. intros row' Hin. exists row'.
      split; [|done]. apply elem_of_app. by left.
    + eapply Forall_impl; [exact H7|]. intros ev Han. right.
      exists row. split; [|done]. apply elem_of_app. right.
      by apply list_elem_of_singleton.
  - apply query_first_Some in H1 as [Hj _]. rewrite H2, H4.
    apply Forall_app. split.
    + eapply Forall_impl; [exact Hok|]. intros ev.
      apply event_ok_mono. intros row' Hin.
      apply list_elem_of_lookup in Hin as [i Hi].
      destruct (decide (i = j)) as [->|Hne].
      * exists (end_row (clock st) row). split.
        -- eapply list_elem_of_lookup_2. apply list_lookup_insert_eq.
           by eapply lookup_lt_Some.
        -- by simplify_eq.
      * exists row'. split; [|done].
        eapply list_elem_of_lookup_2. by rewrite list_lookup_insert_ne.
    + apply Forall_singleton. by left.
Qed.

Lemma reachable_events_ok st :
  reachable st → Forall (event_ok (voice_session st)) (emitted st).
Proof.
  revert st.
  apply (reachable_invariant
           (λ s, Forall (event_ok (voice_session s)) (emitted s)));
    [constructor|].
  intros l s s' _ HP Hs. eapply effect_events_ok; [|done].
  by eapply step_effect.
Qed.

(** X6: every [matched] event ever sent names a session of the table,
    with the room URL and the [is_ai] flag the row holds. *)
Theorem matched_events_have_rows st sid k url ai partner :
  reachable st →
  (sid, matched k url ai partner) ∈ emitted st →
  ∃ row,
    row ∈ voice_session st ∧
    VoiceSession.session_id row = k ∧
    VoiceSession.room_url row = url ∧
    VoiceSession.is_ai_session row = ai.
Proof.
  intros Hr Hin. pose proof (reachable_events_ok st Hr) as Hok.
  rewrite Forall_forall in Hok.
  destruct (Hok _ Hin) as [Hq|(row & Hrow & p & Hev)]; [done|].
  simpl in Hev. exists row. split; [done|]. by simplify_eq.
Qed.

(** ** Rows are kept, and an ended row stays ended *)

Lemma effect_row_kept st st' i row :
  effect st st' →
  voice_session st !! i = Some row →
  ∃ row',
    voice_session st' !! i = Some row' ∧
    VoiceSession.session_id row' = VoiceSession.session_id row ∧
    VoiceSession.user1_id row' = VoiceSession.user1_id row ∧
    VoiceSession.user2_id row' = VoiceSession.user2_id row ∧
    VoiceSession.room_name row' = VoiceSession.room_name row ∧
    VoiceSession.room_url row' = VoiceSession.room_url row ∧
    VoiceSession.created_at row' = VoiceSession.created_at row ∧
    (VoiceSession.status row = "ended" → VoiceSession.status row' = "ended").
Proof.
  intros [evs H1 H2 H3 H4|r a evs H1 H2 H3 H4 H5 H6 H7|k j r sid H1 H2 H3 H4]
    Hi.
  - exists row. by rewrite H1.
  - apply add_commit_Some in H1 as [-> _]. exists row.
    split; [by apply lookup_app_l_Some|done].
  - apply query_first_Some in H1 as [Hj _]. rewrite H2.
    destruct (decide (i = j)) as [->|Hne].
    + exists (end_row (clock st) r). simplify_eq.
      split; [|done]. apply list_lookup_insert_eq. by eapply lookup_lt_Some.
    + exists row. by rewrite list_lookup_insert_ne.
Qed.

(** X7: no transition deletes a row, changes who is in a session or in
    which room, or sets an ended row back: along any run from any state,
    the row at an index keeps its session id, participants, room and
    creation time, and once its status is ['ended'] it stays so. *)
Theorem ended_stays_ended ls st st' i row :
  run ls st = Some st' →
  voice_session st !! i = Some row →
  ∃ row',
    voice_session st' !! i = Some row' ∧
    VoiceSession.session_id row' = VoiceSession.session_id row ∧
    VoiceSession.user1_id row' = VoiceSession.user1_id row ∧
    VoiceSession.user2_id row' = VoiceSession.user2_id row ∧
    VoiceSession.room_name row' = VoiceSession.room_name row ∧
    VoiceSession.room_url row' = VoiceSession.room_url row ∧
    VoiceSession.created_at row' = VoiceSession.created_at row ∧
    (VoiceSession.status row = "ended" → VoiceSession.status row' = "ended").
Proof.
  revert st row. induction ls as [|l ls IH]; simpl; intros st row Hr Hi.
  - simplify_eq. by exists row.
  - destruct (step_fun l st) as [s1|] eqn:Hs; [|done].
    destruct (effect_row_kept st s1 i row (step_effect _ _ _ Hs) Hi)
      as (r1 & Hi1 & E1 & E2 & E3 & E4 & E5 & E6 & E7).
    destruct (IH s1 r1 Hr Hi1) as (r2 & Hi2 & F1 & F2 & F3 & F4 & F5 & F6 & F7).
    exists r2. split; [done|].
    repeat split; [congruence..|]. auto.
Qed.

(** ** Only [end_session] ends a session *)

Lemma pair_with_grows e r p st :
  (voice_session (fst (pair_with e r p st)) = voice_session st ∧
   active_sessions (fst (pair_with e r p st)) = active_sessions st) ∨
  (∃ row a,
     add_commit row (voice_session st)
     = Some (voice_session (fst (pair_with e r p st))) ∧
     active_sessions (fst (pair_with e r p st))
     = <[VoiceSession.session_id row := a]> (active_sessions st)).
Proof.
  unfold pair_with.
  destruct (create_daily_room _ _) as [[url name] calls]; simpl.
  destruct (add_commit _ _) as [tbl|] eqn:Hc; simpl; [right|by left].
  eexists _, _. split; [exact Hc|done].
Qed.

Lemma check_timeout_fallback_grows e uid sid st :
  (voice_session (fst (check_timeout_fallback e uid sid st))
   = voice_session st ∧
   active_sessions (fst (check_timeout_fallback e uid sid st))
   = active_sessions st) ∨
  (∃ row a,
     add_commit row (voice_session st)
     = Some (voice_session (fst (check_timeout_fallback e uid sid st))) ∧
     active_sessions (fst (check_timeout_fallback e uid sid st))
     = <[VoiceSession.session_id row := a]> (active_sessions st)).
Proof.
  unfold check_timeout_fallback.
  destruct (create_daily_room _ _) as [[url name] calls]; simpl.
  destruct task_db_session; [|by left].
  destruct (add_commit _ _) as [tbl|] eqn:Hc; simpl; [right|by left].
  eexists _, _. split; [exact Hc|done].
Qed.

Lemma step_grows l st st' :
  step_fun l st = Some st' →
  is_end_session l = false →
  (voice_session st' = voice_session st ∧
   active_sessions st' = active_sessions st) ∨
  (∃ row a,
     add_commit row (voice_session st) = Some (voice_session st') ∧
     active_sessions st'
     = <[VoiceSession.session_id row := a]> (active_sessions st)).
Proof.
  destruct l as [dt|r|r|r|e r|r|e r data|i|e i]; simpl; intros Hs Hl;
    try done.
  - case_decide; simplify_eq. by left.
  - simplify_eq. unfold handle_connect. case_match; by left.
  - simplify_eq. unfold handle_disconnect. case_match; by left.
  - simplify_eq. unfold logout. case_match; by left.
  - simplify_eq. unfold handle_join_queue. case_match; [|by left]. simpl.
    destruct (without_user _ _) as [|a rest]; simpl; [by left|].
    apply (pair_with_grows e r a
             (set_queue rest (set_queue (a :: rest) st))).
  - simplify_eq. unfold handle_cancel_search. case_match; by left.
  - unfold timer_wake in Hs. repeat case_match; simplify_eq. by left.
  - unfold timer_run in Hs. repeat case_match; simplify_eq; [|by left].
    apply (check_timeout_fallback_grows e (Task.user_id t) (Task.sid t) st).
Qed.

(** X8: a session is only ended by [end_session].  Along a run from a
    reachable state that contains no [end_session] call (joins, cancels,
    disconnects, logouts and timers only), the rows of the table stay as
    they are, new rows coming after them, and every entry of
    [active_sessions] stays: a disconnect does not end the user's
    session. *)
Theorem sessions_persist_without_end ls st st' :
  reachable st →
  run ls st = Some st' →
  forallb (λ l, negb (is_end_session l)) ls = true →
  voice_session st `prefix_of` voice_session st' ∧
  active_sessions st ⊆ active_sessions st'.
Proof.
  revert st. induction ls as [|l ls IH]; simpl; intros st Hr Hrun Hall.
  - by simplify_eq.
  - destruct (step_fun l st) as [s1|] eqn:Hs; [|done].
    apply andb_true_iff in Hall as [Hl Hall].
    apply negb_true_iff in Hl.
    destruct (IH s1 (reachable_step l st s1 Hr Hs) Hrun Hall) as [Hp Ha].
    destruct (step_grows l st s1 Hs Hl) as [[Hv Hm]|(row & a & Hc & Hm)].
    + by rewrite <- Hv, <- Hm.
    + apply add_commit_Some in Hc as [Hv Hfresh]. split.
      * etrans; [|exact Hp]. rewrite Hv. by apply prefix_app_r.
      * etrans; [|exact Ha]. rewrite Hm. apply insert_subseteq.
        destruct (active_sessions st !! VoiceSession.session_id row)
          as [a'|] eqn:Hk; [|done].
        destruct (reachable_registry st Hr) as [_ Hreg].
        destruct (Hreg _ a' Hk) as (i & row' & Hi & Hid & _).
        exfalso. apply Hfresh. rewrite <- Hid.
        apply list_elem_of_fmap_2. by eapply list_elem_of_lookup_2.
Qed.

(** ** Every queued user has a timer *)





(** ** Requests to Daily.co *)

Lemma create_daily_room_no_key answer name :
  DAILY_API_KEY = "" →
  create_daily_room answer name = ((fallback_url name, name), []).
Proof. intros Hk. unfold create_daily_room. by rewrite decide_True. Qed.

Lemma delete_daily_room_no_key answer name :
  DAILY_API_KEY = "" → delete_daily_room answer name = (true, []).
Proof. intros Hk. unfold delete_daily_room. by rewrite decide_True. Qed.

(** X10: with an empty [DAILY_API_KEY] the server never sends a request
    to Daily.co, whatever the handlers do: rooms are neither created nor
    deleted there. *)
Theorem no_key_no_requests st :
  DAILY_API_KEY = "" → reachable st → daily st = [].
Proof.
  intros Hk. revert st.
  apply (reachable_invariant (λ s, daily s = [])); [done|].
  intros l st st' _ IH Hs.
  destruct l as [dt|r|r|r|e r|r|e r data|i|e i]; simpl in Hs.
  - case_decide; by simplify_eq.
  - simplify_eq. unfold handle_connect. by case_match.
  - simplify_eq. unfold handle_disconnect. by case_match.
  - simplify_eq. unfold logout. by case_match.
  - simplify_eq. unfold handle_join_queue. case_match; [|done]. simpl.
    destruct (without_user _ _) as [|a rest]; simpl; [done|].
    unfold pair_with. rewrite create_daily_room_no_key by done. simpl.
    destruct (add_commit _ _); simpl; by rewrite IH.
  - simplify_eq. unfold handle_cancel_search. by case_match.
  - simplify_eq. unfold handle_end_session. case_match; [|done]. simpl.
    repeat case_match; simpl; try done.
    rewrite delete_daily_room_no_key by done. simpl. by rewrite IH.
  - unfold timer_wake in Hs. repeat case_match; by simplify_eq.
  - unfold timer_run in Hs. repeat case_match; simplify_eq; simpl; [|done].
    unfold check_timeout_fallback.
    rewrite create_daily_room_no_key by done. simpl.
    destruct task_db_session; [destruct (add_commit _ _)|]; simpl;
      by rewrite IH.
Qed.

(** ** How the handlers compose *)

(** X11: a cancel of a logged-in user drops every entry of that user,
    leaves the other entries in their order and tells the user
    [search_cancelled], whatever the queue holds.  When nobody else is
    queued, the next user to join is not paired with the one who cancelled
    but queued alone at position 1, and no session is created. *)
Theorem cancel_then_join_enqueues st e r1 r2 :
  User.is_authenticated (Request.current_user r1) = true →
  User.is_authenticated (Request.current_user r2) = true →
  without_user (User.id (Request.current_user r1)) (waiting_queue st) = [] →
  let st1 := handle_cancel_search r1 st in
  let st2 := fst (handle_join_queue e r2 st1) in
  (∀ st0,
     waiting_queue (handle_cancel_search r1 st0)
     = filter (λ u, Waiting.user_id u ≠ User.id (Request.current_user r1))
         (waiting_queue st0)) ∧
  waiting_queue st1 = [] ∧
  emitted st1 = emitted st ++ [(Request.sid r1, search_cancelled)] ∧
  waiting_queue st2
  = [Waiting.mk (User.id (Request.current_user r2))
       (User.username (Request.current_user r2)) (Request.sid r2)
       (clock st)] ∧
  emitted st2 = emitted st1 ++ [(Request.sid r2, waiting 1)] ∧
  voice_session st2 = voice_session st ∧
  active_sessions st2 = active_sessions st.
Proof.
  intros Ha1 Ha2 Hq st1 st2.
  split.
  { intros st0. unfold handle_cancel_search. by rewrite Ha1. }
  assert (waiting_queue st1 = []) as Hq1.
  { unfold st1, handle_cancel_search. rewrite Ha1. simpl. done. }
  split; [done|]. split.
  { unfold st1, handle_cancel_search. by rewrite Ha1. }
  unfold st2. rewrite handle_join_queue_empty by done. simpl.
  unfold st1, handle_cancel_search. rewrite Ha1. done.
Qed.

(** X12: a request of a user who is not logged in is ignored by every
    handler: connect, disconnect, logout, join, cancel and end leave the
    whole state as it is and send nothing. *)
Theorem unauthenticated_requests_ignored l r st :
  request_of l = Some r →
  User.is_authenticated (Request.current_user r) = false →
  step_fun l st = Some st.
Proof.
  intros Hl Ha.
  destruct l as [dt|r'|r'|r'|e r'|r'|e r' data|i|e i]; simpl in *;
    simplify_eq; f_equal.
  - unfold handle_connect. by rewrite Ha.
  - unfold handle_disconnect. by rewrite Ha.
  - unfold logout. by rewrite Ha.
  - unfold handle_join_queue. by rewrite Ha.
  - unfold handle_cancel_search. by rewrite Ha.
  - unfold handle_end_session. by rewrite Ha.
Qed.

Lemma query_first_new k tbl row :
  query_first k tbl = None →
  VoiceSession.session_id row = k →
  query_first k (tbl ++ [row]) = Some (length tbl, row).
Proof.
  unfold query_first. intros Hn Hid. apply list_find_Some.
  split; [by apply list_lookup_middle|]. split; [done|].
  intros j y Hj Hlt. rewrite lookup_app_l in Hj by done.
  apply list_find_None in Hn. rewrite Forall_forall in Hn.
  apply Hn. by eapply list_elem_of_lookup_2.
Qed.

(** X13: pairing then ending.  With a key configured, a pairing sends one
    creation request for the name ["room" + token_hex] and the later
    [end_session] of that session, by any logged-in user, sends one
    deletion request for the room name the session stored: the name
    Daily.co answered on success, the requested name on failure.  The
    session is then out of [active_sessions] and its row is ended. *)
Theorem end_releases_registered_room st e1 e2 r r2 a :
  DAILY_API_KEY ≠ "" →
  waiting_queue st = [a] →
  User.is_authenticated (Request.current_user r) = true →
  User.is_authenticated (Request.current_user r2) = true →
  Waiting.user_id a ≠ User.id (Request.current_user r) →
  fresh (Env.token_urlsafe e1) st →
  Env.token_urlsafe e1 ≠ "" →
  let st1 := fst (handle_join_queue e1 r st) in
  let st2 := handle_end_session e2 r2 (Some (Env.token_urlsafe e1)) st1 in
  daily st2 =
    daily st ++
      [POST_rooms ("room" +:+ Env.token_hex e1);
       DELETE_rooms (snd (room_for "room" e1))] ∧
  (∀ url name,
     Env.post e1 = Response 200 (Some (url, name)) →
     room_for "room" e1 = (url, name)) ∧
  (create_failed (Env.post e1) →
   snd (room_for "room" e1) = "room" +:+ Env.token_hex e1) ∧
  active_sessions st2 !! Env.token_urlsafe e1 = None ∧
  VoiceSession.status <$> voice_session st2 !! length (voice_session st)
  = Some "ended".
Proof.
  intros Hk Hq Ha Ha2 Hne Hf Htok st1 st2.
  assert (Hst1 : st1 = fst (pair_with e1 r a (set_queue [] st))).
  { unfold st1. by rewrite (handle_join_queue_pairs e1 r a). }
  rewrite pair_with_fresh in Hst1 by done. simpl in Hst1.
  assert (snd (create_daily_room (Env.post e1) ("room" +:+ Env.token_hex e1))
          = [POST_rooms ("room" +:+ Env.token_hex e1)]) as Hpost.
  { unfold create_daily_room. by rewrite decide_False. }
  rewrite Hpost in Hst1.
  assert (truthy (Some (Env.token_urlsafe e1)) = Some (Env.token_urlsafe e1))
    as Htr by (simpl; by rewrite decide_False).
  unfold st2.
  erewrite handle_end_session_found; [|done|exact Htr|]; cycle 1.
  { rewrite Hst1. simpl. by apply query_first_new. }
  simpl. rewrite Hst1. simpl.
  rewrite delete_daily_room_calls by done.
  split; [by rewrite <- app_assoc|].
  split.
  { intros url name Hp. unfold room_for, create_daily_room.
    rewrite decide_False by done. by rewrite Hp. }
  split.
  { intros Hc. unfold room_for. by rewrite create_daily_room_failed. }
  split; [apply lookup_delete_eq|].
  rewrite list_lookup_insert_eq; [done|]. rewrite length_app. simpl. lia.
Qed.

(** X14: when the drawn session token is already a [session_id] of the
    table, the commit raises.  In a pairing the partner has by then been
    popped and the room requested: the queue is left empty, nobody is
    notified, no session is recorded.  In the timeout fallback the entry
    has been removed likewise and the user gets no [matched] event; there
    the exception is the one of the commit where the task can use
    [db.session], and the earlier one of [db.session.add] where it
    cannot. *)
Theorem duplicate_session_id_aborts st e r a i row :
  User.is_authenticated (Request.current_user r) = true →
  waiting_queue st = [a] →
  Waiting.user_id a ≠ User.id (Request.current_user r) →
  query_first (Env.token_urlsafe e) (voice_session st) = Some (i, row) →
  let paired := handle_join_queue e r st in
  let fallen := check_timeout e (Waiting.user_id a) (Waiting.sid a) st in
  (snd paired = IntegrityError ∧
   waiting_queue (fst paired) = [] ∧
   emitted (fst paired) = emitted st ∧
   voice_session (fst paired) = voice_session st ∧
   active_sessions (fst paired) = active_sessions st ∧
   daily (fst paired) =
     daily st ++
       snd (create_daily_room (Env.post e) ("room" +:+ Env.token_hex e))) ∧
  (snd fallen = (if task_db_session then IntegrityError else RuntimeError) ∧
   waiting_queue (fst fallen) = [] ∧
   emitted (fst fallen) = emitted st ∧
   voice_session (fst fallen) = voice_session st ∧
   active_sessions (fst fallen) = active_sessions st ∧
   daily (fst fallen) =
     daily st ++
       snd (create_daily_room (Env.post e) ("ai" +:+ Env.token_hex e))).
Proof.
  intros Ha Hq Hne Hdup paired fallen. split.
  - unfold paired. rewrite (handle_join_queue_pairs e r a) by done.
    unfold pair_with.
    destruct (create_daily_room _ _) as [[url name] calls]; simpl.
    unfold add_commit. simpl. by rewrite Hdup.
  - unfold fallen, check_timeout. rewrite Hq. simpl.
    rewrite bool_decide_true by done. simpl.
    unfold check_timeout_fallback.
    destruct (create_daily_room _ _) as [[url name] calls]; simpl.
    destruct task_db_session; unfold add_commit; simpl; rewrite ?Hdup;
      simpl; rewrite Hq; unfold without_user;
      by rewrite filter_cons_False by (simpl; tauto).
Qed.

Lemma lookup_second {A} (l : list A) x y :
  (l ++ [x; y]) !! S (length l) = Some y.
Proof. induction l as [|z l IH]; simpl; [done|exact IH]. Qed.

Lemma alter_first {A} (f : A → A) (l : list A) x y :
  alter f (length l) (l ++ [x; y]) = l ++ [f x; y].
Proof. induction l as [|z l IH]; simpl; [done|]. f_equal. exact IH. Qed.

Lemma alter_second {A} (f : A → A) (l : list A) x y :
  alter f (S (length l)) (l ++ [x; y]) = l ++ [x; f y].
Proof. induction l as [|z l IH]; simpl; [done|]. f_equal. exact IH. Qed.

Lemma handle_join_queue_alone e r st :
  User.is_authenticated (Request.current_user r) = true →
  without_user (User.id (Request.current_user r)) (waiting_queue st) = [] →
  handle_join_queue e r st =
  (mkState
     [Waiting.mk (User.id (Request.current_user r))
        (User.username (Request.current_user r)) (Request.sid r) (clock st)]
     (active_sessions st) (voice_session st)
     (emitted st ++ [(Request.sid r, waiting 1)]) (daily st)
     (tasks st ++
        [Task.mk (User.id (Request.current_user r)) (Request.sid r)
           (sleeping (clock st + 8))])
     (clock st),
   Returned).
Proof.
  intros Ha Hq. unfold handle_join_queue. rewrite Ha. simpl. by rewrite Hq.
Qed.

Lemma run_join e r ls st :
  run (JoinQueue e r :: ls) st = run ls (fst (handle_join_queue e r st)).
Proof. done. Qed.

(** X15: a queued user who joins again, from another connection, before
    the timeout replaces their entry and starts a second timer; the first
    one is not stopped.  When the first timer is due, eight units after
    the first join, it removes the new entry; the second timer later finds
    nothing.  The connection the user last joined from gets [waiting] and
    nothing more: where the fallback goes through, its [matched] event is
    sent to the connection of the first join, and where [db.session.add]
    raises in the task, none is sent at all. *)
Theorem rejoin_entry_taken_by_first_timer st e1 e2 e3 e4 r r' dt :
  waiting_queue st = [] →
  User.is_authenticated (Request.current_user r) = true →
  User.is_authenticated (Request.current_user r') = true →
  User.id (Request.current_user r') = User.id (Request.current_user r) →
  (0 ≤ dt < 8)%Z →
  fresh (Env.token_urlsafe e3) st →
  let i := length (tasks st) in
  let uid := User.id (Request.current_user r) in
  ∃ st',
    run [JoinQueue e1 r; Tick dt; JoinQueue e2 r'; Tick (8 - dt);
         TimerWake i; TimerRun e3 i; Tick dt;
         TimerWake (S i); TimerRun e4 (S i)] st = Some st' ∧
    emitted st' =
      emitted st ++
        [(Request.sid r, waiting 1); (Request.sid r', waiting 1)] ++
        (if task_db_session
         then [(Request.sid r,
                matched (Env.token_urlsafe e3) (fst (room_for "ai" e3)) true
                  None)]
         else []) ∧
    waiting_queue st' = [] ∧
    tasks st' =
      tasks st ++
        [Task.mk uid (Request.sid r) finished;
         Task.mk uid (Request.sid r') finished] ∧
    voice_session st' =
      voice_session st ++
        (if task_db_session
         then [VoiceSession.mk (Env.token_urlsafe e3)
                 (snd (room_for "ai" e3)) (fst (room_for "ai" e3)) uid None
                 true "active" (clock st + 8) None]
         else []).
Proof.
  intros Hq Ha Ha' Hid Hdt Hf i uid.
  rewrite run_join, handle_join_queue_empty by done. simpl fst.
  rewrite run_tick by lia. rewrite run_join.
  rewrite handle_join_queue_alone; [|done|]; cycle 1.
  { simpl. unfold without_user.
    rewrite filter_cons_False by (simpl; rewrite Hid; tauto). done. }
  simpl fst. rewrite run_tick by lia. simpl set_clock.
  replace (clock st + dt + (8 - dt))%Z with (clock st + 8)%Z by lia.
  rewrite <- !app_assoc. simpl app.
  change (?a :: ?b :: ?ls) with ([a; b] ++ ls) at 1.
  rewrite run_app.
  rewrite (timer_atomic e3 i uid (Request.sid r) (clock st + 8)); cycle 1.
  { simpl. by apply list_lookup_middle. }
  { simpl. lia. }
  unfold check_timeout. simpl user_in_queue.
  rewrite bool_decide_true by done. simpl orb. cbv iota.
  destruct task_db_session eqn:Hb.
  - rewrite check_timeout_fallback_fresh by done.
    cbn [fst mbind option_bind].
    rewrite run_tick by lia.
    rewrite (timer_noop e4 (S i) (User.id (Request.current_user r'))
               (Request.sid r') (clock st + dt + 8)); cycle 1.
    { simpl. subst i. rewrite alter_first. apply lookup_second. }
    { simpl. lia. }
    { simpl. unfold without_user.
      rewrite filter_cons_False by (simpl; rewrite Hid; tauto). done. }
    eexists. split; [done|]. simpl. subst i uid.
    rewrite alter_first, alter_second. simpl. rewrite Hid.
    unfold without_user. rewrite filter_cons_False by (simpl; tauto).
    by rewrite <- app_assoc.
  - rewrite check_timeout_fallback_raises by done.
    cbn [fst mbind option_bind].
    rewrite run_tick by lia.
    rewrite (timer_noop e4 (S i) (User.id (Request.current_user r'))
               (Request.sid r') (clock st + dt + 8)); cycle 1.
    { simpl. subst i. rewrite alter_first. apply lookup_second. }
    { simpl. lia. }
    { simpl. unfold without_user.
      rewrite filter_cons_False by (simpl; rewrite Hid; tauto). done. }
    eexists. split; [done|]. simpl. subst i uid.
    rewrite alter_first, alter_second. simpl. rewrite Hid.
    unfold without_user. rewrite filter_cons_False by (simpl; tauto).
    by rewrite !app_nil_r.
Qed.

(** ** The join handler as a thread *)




End Properties.

(** * Properties of the accounts *)

Section AccountProperties.

Context {lib : Builtins}.

Lemma max_id_cons (b : Account.t) (users : list Account.t) :
  foldr Z.max 0%Z (Account.id <$> b :: users)
  = Z.max (Account.id b) (foldr Z.max 0%Z (Account.id <$> users)).
Proof. done. Qed.

Lemma next_id_above (users : list Account.t) a :
  a ∈ users → (Account.id a < next_id users)%Z.
Proof.
  unfold next_id. induction users as [|b users IH]; intros Hin.
  - by apply elem_of_nil in Hin.
  - rewrite max_id_cons. apply elem_of_cons in Hin as [->|Hin]; [lia|].
    specialize (IH Hin). lia.
Qed.

Lemma next_id_positive (users : list Account.t) : (1 ≤ next_id users)%Z.
Proof.
  unfold next_id. induction users as [|b users IH]; [done|].
  rewrite max_id_cons. lia.
Qed.

Lemma find_username_new (users : list Account.t) a :
  find_username (Account.username a) users = None →
  find_username (Account.username a) (users ++ [a])
  = Some (length users, a).
Proof.
  unfold find_username. intros Hn. apply list_find_Some.
  split; [by apply list_lookup_middle|]. split; [done|].
  intros j y Hj Hlt. rewrite lookup_app_l in Hj by done.
  apply list_find_None in Hn. rewrite Forall_forall in Hn.
  apply Hn. by eapply list_elem_of_lookup_2.
Qed.

(** The three ways a request can go. *)
Lemma login_cases q users :
  (∃ resp,
     login q users = (users, resp, None) ∧
     ∀ redirect, resp ≠ login_success redirect) ∨
  (∃ i row,
     login q users = (users, login_success "/", Some row) ∧
     users !! i = Some row ∧
     LoginRequest.method q = POST ∧
     Account.username row = str_strip (default "" (LoginRequest.username q)) ∧
     Account.password row
     = sha256_hexdigest (default "" (LoginRequest.password q))) ∨
  (∃ row,
     login q users = (users ++ [row], login_success "/", Some row) ∧
     row = Account.mk (next_id users)
             (str_strip (default "" (LoginRequest.username q)))
             (sha256_hexdigest (default "" (LoginRequest.password q)))
             (LoginRequest.now q) ∧
     LoginRequest.method q = POST ∧
     Account.username row ≠ "" ∧
     default "" (LoginRequest.password q) ≠ "" ∧
     find_username (Account.username row) users = None).
Proof.
  unfold login. destruct (LoginRequest.method q) eqn:Hm.
  { left. by eexists. }
  case_decide as Hblank.
  { left. by eexists. }
  destruct (find_username _ users) as [[i row]|] eqn:Hf.
  - case_decide as Hpw.
    + left. by eexists.
    + right. left. exists i, row. split; [done|].
      unfold find_username in Hf. apply list_find_Some in Hf as (Hi & Hu & _).
      split; [done|]. split; [done|]. split; [done|].
      by destruct (decide (Account.password row
                           = sha256_hexdigest
                               (default "" (LoginRequest.password q)))).
  - right. right. eexists. split; [done|]. split; [done|]. split; [done|].
    simpl. split; [tauto|]. split; [tauto|done].
Qed.

(** X16: a POST whose username is empty once stripped, or whose password
    is empty, a missing field counting as empty, is answered 400; no
    account is created and nobody is logged in. *)
Theorem login_rejects_blank q users :
  LoginRequest.method q = POST →
  str_strip (default "" (LoginRequest.username q)) = "" ∨
  default "" (LoginRequest.password q) = "" →
  login q users
  = (users, login_error 400 "Username and password required", None).
Proof.
  intros Hm Hblank. unfold login. rewrite Hm. by rewrite decide_True.
Qed.

(** X17: the first POST for a name creates the account, with the digest
    of the password, and logs it in.  Afterwards the same name and
    password log the same account in and change nothing; a password with
    another digest is answered 401 and logs nobody in. *)
Theorem register_then_login now u p users :
  str_strip u ≠ "" →
  p ≠ "" →
  find_username (str_strip u) users = None →
  let row :=
    Account.mk (next_id users) (str_strip u) (sha256_hexdigest p) now in
  login (LoginRequest.mk now POST (Some u) (Some p)) users
  = (users ++ [row], login_success "/", Some row) ∧
  (∀ now',
     login (LoginRequest.mk now' POST (Some u) (Some p)) (users ++ [row])
     = (users ++ [row], login_success "/", Some row)) ∧
  (∀ now' p',
     sha256_hexdigest p' ≠ sha256_hexdigest p →
     p' ≠ "" →
     login (LoginRequest.mk now' POST (Some u) (Some p')) (users ++ [row])
     = (users ++ [row], login_error 401 "Invalid password", None)).
Proof.
  intros Hu Hp Hnew row.
  assert (find_username (str_strip u) (users ++ [row])
          = Some (length users, row)) as Hfound
    by apply (find_username_new users row Hnew).
  split; [|split].
  - unfold login. simpl. rewrite decide_False by tauto. by rewrite Hnew.
  - intros now'. unfold login. simpl. rewrite decide_False by tauto.
    rewrite Hfound. simpl. by rewrite decide_False by tauto.
  - intros now' p' Hdig Hp'. unfold login. simpl.
    rewrite decide_False by tauto. rewrite Hfound. simpl.
    rewrite decide_True; [done|]. congruence.
Qed.

Lemma logins_snoc qs q users :
  logins (qs ++ [q]) users = fst (fst (login q (logins qs users))).
Proof. unfold logins. by rewrite foldl_app. Qed.

Lemma logins_invariant (P : list Account.t → Prop) :
  P [] →
  (∀ q users, P users → P (fst (fst (login q users)))) →
  ∀ qs, P (logins qs []).
Proof.
  intros H0 Hstep qs. induction qs as [|q qs IH] using rev_ind; [done|].
  rewrite logins_snoc. by apply Hstep.
Qed.

Lemma accounts_ok qs :
  NoDup (Account.username <$> logins qs []) ∧
  NoDup (Account.id <$> logins qs []) ∧
  Forall (λ a, (1 ≤ Account.id a)%Z ∧ Account.username a ≠ "")
    (logins qs []).
Proof.
  apply (logins_invariant
           (λ us, NoDup (Account.username <$> us) ∧
                  NoDup (Account.id <$> us) ∧
                  Forall (λ a, (1 ≤ Account.id a)%Z ∧
                               Account.username a ≠ "") us)).
  { repeat split; constructor. }
  intros q users (Hn & Hi & Hall).
  destruct (login_cases q users)
    as [(resp & -> & _)
       |[(i & row & -> & _)|(row & -> & Hrow & _ & Hne & _ & Hf)]];
    simpl; [done|done|].
  split; [|split].
  - rewrite fmap_app. apply NoDup_app. split; [done|].
    split; [|apply NoDup_singleton].
    intros x Hx Hx'. apply list_elem_of_singleton in Hx'. subst x.
    apply list_elem_of_fmap in Hx as (a & Hau & Ha).
    unfold find_username in Hf. apply list_find_None in Hf.
    rewrite Forall_forall in Hf. by apply (Hf a).
  - rewrite fmap_app. apply NoDup_app. split; [done|].
    split; [|apply NoDup_singleton].
    intros x Hx Hx'. apply list_elem_of_singleton in Hx'. subst x.
    apply list_elem_of_fmap in Hx as (a & Hau & Ha).
    pose proof (next_id_above users a Ha). rewrite Hrow in Hau. simpl in Hau.
    lia.
  - apply Forall_app. split; [done|]. apply Forall_singleton.
    split; [|done]. rewrite Hrow. simpl. apply next_id_positive.
Qed.

(** X18: whatever requests have been served since the table was empty,
    no two accounts share a username or an id, every id is at least 1 and
    no username is empty. *)
Theorem accounts_unique qs a :
  a ∈ logins qs [] →
  NoDup (Account.username <$> logins qs []) ∧
  NoDup (Account.id <$> logins qs []) ∧
  (1 ≤ Account.id a)%Z ∧
  Account.username a ≠ "".
Proof.
  intros Ha. destruct (accounts_ok qs) as (Hn & Hi & Hall).
  rewrite Forall_forall in Hall. destruct (Hall a Ha). done.
Qed.

(** X19: [login] only ever appends: after any sequence of requests, on
    any table, the accounts that were there are still there, at the same
    place, with the same id, name and password digest.  A name once taken
    cannot be taken over with another password. *)
Theorem login_keeps_accounts qs users i a :
  users !! i = Some a →
  users `prefix_of` logins qs users ∧
  logins qs users !! i = Some a.
Proof.
  intros Hi.
  assert (users `prefix_of` logins qs users) as Hp.
  { induction qs as [|q qs IH] using rev_ind; [done|].
    rewrite logins_snoc. etrans; [exact IH|].
    destruct (login_cases q (logins qs users))
      as [(resp & -> & _)|[(j & row & -> & _)|(row & -> & _)]];
      simpl; [done|done|by apply prefix_app_r]. }
  split; [done|]. by eapply prefix_lookup_Some.
Qed.

Lemma logged_in_presented_password_aux q users users' resp row :
  login q users = (users', resp, Some row) → ∃ i, users' !! i = Some row.
Proof.
  intros Hl.
  destruct (login_cases q users)
    as [(resp' & H & _)|[(i & r & H & Hi & _)|(r & H & _)]];
    rewrite H in Hl; simplify_eq.
  - by exists i.
  - exists (length users). by apply list_lookup_middle.
Qed.

(** X20: whoever [login] logs in presented the password: the request was
    a POST, the account is in the table under the stripped name, its
    stored digest is the digest of the submitted password, and the
    response is the success one; any other response logs nobody in. *)
Theorem logged_in_presented_password q users users' resp row :
  login q users = (users', resp, Some row) →
  LoginRequest.method q = POST ∧
  row ∈ users' ∧
  Account.username row = str_strip (default "" (LoginRequest.username q)) ∧
  Account.password row
  = sha256_hexdigest (default "" (LoginRequest.password q)) ∧
  resp = login_success "/".
Proof.
  intros Hl.
  destruct (login_cases q users)
    as [(resp' & H & _)|[(i & r & H & Hi & Hm & Hu & Hp)
                        |(r & H & Hr & Hm & _)]];
    rewrite H in Hl; simplify_eq.
  - repeat split; try done. by eapply list_elem_of_lookup_2.
  - repeat split; try done. apply elem_of_app. right.
    by apply list_elem_of_singleton.
Qed.

(** X21: the account [login] logs in is the one [load_user] gets back
    from its id, in any table built by [login] from the empty one. *)
Theorem load_user_finds_logged_in qs q users' resp row :
  login q (logins qs []) = (users', resp, Some row) →
  load_user (Account.id row) users' = Some row.
Proof.
  intros Hl.
  assert (users' = logins (qs ++ [q]) []) as Hu
    by (rewrite logins_snoc, Hl; done).
  destruct (logged_in_presented_password_aux q (logins qs []) users' resp row
              Hl)
    as [i Hi].
  destruct (accounts_ok (qs ++ [q])) as (_ & Hnd & _). rewrite <- Hu in Hnd.
  unfold load_user.
  assert (list_find (λ a, Account.id a = Account.id row) users'
          = Some (i, row)) as ->; [|done].
  apply list_find_Some. split; [done|]. split; [done|].
  intros j y Hj Hlt Hy.
  assert ((Account.id <$> users') !! i = Some (Account.id row)) as Hi'
    by (by rewrite list_lookup_fmap, Hi).
  assert ((Account.id <$> users') !! j = Some (Account.id row)) as Hj'
    by (by rewrite list_lookup_fmap, Hj; simpl; rewrite Hy).
  pose proof (NoDup_lookup _ _ _ _ Hnd Hi' Hj'). lia.
Qed.

End AccountProperties.

(** * Properties of the schema migration *)

Lemma create_table_lookup (db : gmap string Table.t) m n :
  create_table db m !! n =
  match db !! n with
  | Some t => Some t
  | None => if decide (n = fst m) then Some (Table.mk (snd m) 0) else None
  end.
Proof.
  unfold create_table. destruct (decide (n = fst m)) as [->|Hne].
  - destruct (db !! fst m) eqn:Hm; [by rewrite Hm|].
    by rewrite lookup_insert_eq.
  - destruct (db !! fst m) eqn:Hm.
    + by destruct (db !! n).
    + rewrite lookup_insert_ne by done. by destruct (db !! n).
Qed.

Lemma create_all_lookup (db : gmap string Table.t) n :
  create_all db !! n =
  match db !! n with
  | Some t => Some t
  | None =>
      if decide (n = "user") then Some (Table.mk user_columns 0)
      else if decide (n = "voice_session")
           then Some (Table.mk voice_session_columns 0)
           else None
  end.
Proof.
  unfold create_all, metadata. simpl foldl.
  rewrite !create_table_lookup. simpl fst. simpl snd.
  destruct (db !! n); [done|].
  destruct (decide (n = "user")); [done|].
  by destruct (decide (n = "voice_session")).
Qed.

Lemma migrate_database_lookup (db : gmap string Table.t) n :
  migrate_database db !! n =
  match db !! n with
  | Some t =>
      if decide (n = "voice_session") then
        if old_schema t then Some (Table.mk voice_session_columns 0)
        else Some t
      else Some t
  | None =>
      if decide (n = "user") then Some (Table.mk user_columns 0)
      else if decide (n = "voice_session")
           then Some (Table.mk voice_session_columns 0)
           else None
  end.
Proof.
  unfold migrate_database. rewrite create_all_lookup.
  destruct (db !! "voice_session") as [v|] eqn:Hv.
  - destruct (old_schema v) eqn:Hold.
    + rewrite lookup_delete. case_decide; simplify_eq.
      * rewrite Hv, Hold. rewrite decide_False by done.
        by rewrite !decide_True.
      * destruct (db !! n) eqn:Hn; [|done]. by rewrite decide_False.
    + destruct (db !! n) eqn:Hn; [|done].
      case_decide; simplify_eq; [by rewrite Hold|done].
  - destruct (db !! n) eqn:Hn; [|done].
    case_decide; simplify_eq. done.
Qed.

Lemma old_schema_model : old_schema (Table.mk voice_session_columns 0) = false.
Proof. done. Qed.

(** X22: running [migrate_database] a second time changes nothing. *)
Theorem migrate_database_idempotent (db : gmap string Table.t) :
  migrate_database (migrate_database db) = migrate_database db.
Proof.
  apply map_eq. intros n.
  rewrite (migrate_database_lookup (migrate_database db)).
  rewrite (migrate_database_lookup db).
  destruct (db !! n) as [t|] eqn:Hn.
  - case_decide; [|done]. destruct (old_schema t) eqn:Hold.
    + by rewrite old_schema_model.
    + by rewrite Hold.
  - destruct (decide (n = "user")) as [->|Hu]; [done|].
    destruct (decide (n = "voice_session")) as [->|Hv]; [|done].
    by rewrite old_schema_model.
Qed.

(** X23: a [voice_session] table that has a [channel_name] column and no
    [room_name] column is dropped with all its rows and created anew,
    empty, with the columns of the model; every other table that exists,
    [user] included, is left as it is. *)
Theorem migrate_database_drops_old_schema (db : gmap string Table.t) t :
  db !! "voice_session" = Some t →
  "channel_name" ∈ Table.columns t →
  "room_name" ∉ Table.columns t →
  migrate_database db !! "voice_session"
  = Some (Table.mk voice_session_columns 0) ∧
  ∀ n t', n ≠ "voice_session" → db !! n = Some t' →
          migrate_database db !! n = Some t'.
Proof.
  intros Ht Hc Hr.
  assert (old_schema t = true) as Hold.
  { unfold old_schema. rewrite bool_decide_true by done.
    by rewrite bool_decide_false by done. }
  split.
  - by rewrite migrate_database_lookup, Ht, decide_True, Hold.
  - intros n t' Hn Hlook.
    by rewrite migrate_database_lookup, Hlook, decide_False.
Qed.

(** X24: a [voice_session] table that has a [room_name] column, or has no
    [channel_name] column, is kept as it is, rows and columns, whether or
    not its columns are those of the model. *)
Theorem migrate_database_keeps_table (db : gmap string Table.t) t :
  db !! "voice_session" = Some t →
  "room_name" ∈ Table.columns t ∨ "channel_name" ∉ Table.columns t →
  migrate_database db !! "voice_session" = Some t.
Proof.
  intros Ht Hcols.
  assert (old_schema t = false) as Hold.
  { unfold old_schema. destruct Hcols as [Hr|Hc].
    - rewrite (bool_decide_true (_ ∈ _) Hr). apply andb_false_r.
    - by rewrite (bool_decide_false _ Hc). }
  by rewrite migrate_database_lookup, Ht, decide_True, Hold.
Qed.

(** X25: after [migrate_database] the tables [user] and [voice_session]
    exist, the latter never in the old layout; a missing table is created
    empty with the columns of its model, and no table other than these
    two is created, dropped or changed. *)
Theorem migrate_database_tables (db : gmap string Table.t) :
  (∃ t, migrate_database db !! "voice_session" = Some t ∧
        old_schema t = false) ∧
  (migrate_database db !! "user"
   = Some (default (Table.mk user_columns 0) (db !! "user"))) ∧
  (db !! "voice_session" = None →
   migrate_database db !! "voice_session"
   = Some (Table.mk voice_session_columns 0)) ∧
  ∀ n, n ≠ "user" → n ≠ "voice_session" →
       migrate_database db !! n = db !! n.
Proof.
  split; [|split; [|split]].
  - rewrite migrate_database_lookup.
    destruct (db !! "voice_session") as [t|] eqn:Ht.
    + simpl. destruct (old_schema t) eqn:Hold.
      * by eexists.
      * by exists t.
    + simpl. by eexists.
  - rewrite migrate_database_lookup. by destruct (db !! "user") as [t|].
  - intros Hn. by rewrite migrate_database_lookup, Hn.
  - intros n Hu Hv. rewrite migrate_database_lookup.
    destruct (db !! n); by rewrite !decide_False.
Qed.

#[local] Existing Instance deployed.

(** ** Counterexamples *)

(** C1 fails as stated: ending session [S1] a second time, five time
    units after the first, sends a second delete request for its room and
    overwrites [ended_at]. *)
Lemma end_session_twice_releases_twice :
  let st1 := handle_end_session env_ok alice (Some "S1") paired in
  let st2 :=
    handle_end_session env_ok alice (Some "S1") (set_clock 5 st1) in
  run
    [JoinQueue env_ok alice; JoinQueue env_ok bob;
     EndSession env_ok alice (Some "S1"); Tick 5;
     EndSession env_ok alice (Some "S1")] initial = Some st2 ∧
  voice_session st1 = [end_row 0 paired_row] ∧
  release_count "room0a1b" (daily st1) = 1 ∧
  voice_session st2 = [end_row 5 paired_row] ∧
  release_count "room0a1b" (daily st2) = 2 ∧
  daily st2 = [POST_rooms "room0a1b"; DELETE_rooms "room0a1b";
               DELETE_rooms "room0a1b"].
Proof. vm_compute. repeat split; reflexivity. Qed.

(** C2 fails as stated.  Alice is queued and her timer is due.  When
    Bob's join runs between the timer's membership test and its body, Bob
    is paired with Alice and the task, going on with the value it read,
    runs the fallback body for the entry the pairing has consumed: a
    second room is requested for it.  On a library where the task can use
    [db.session] the body completes, and both outcomes occur: Alice's
    connection receives two [matched] events and the table holds two rows
    for her. *)
Lemma timeout_race_double_match :
  (∃ st,
     run
       [Tick 8; TimerWake 0; JoinQueue env_ok bob; TimerRun env_down 0]
       alice_waiting = Some st ∧
     emitted st =
       [("sid-alice", waiting 1);
        ("sid-alice",
         matched "S1" "https://growthstudent.daily.co/room0a1b" false
           (Some "bob"));
        ("sid-bob",
         matched "S1" "https://growthstudent.daily.co/room0a1b" false
           (Some "alice"))] ∧
     daily st = [POST_rooms "room0a1b"; POST_rooms "ai2c3d"]) ∧
  (∃ st,
     run (cfg := legacy)
       [Tick 8; TimerWake 0; JoinQueue env_ok bob; TimerRun env_down 0]
       alice_waiting = Some st ∧
     emitted st =
       [("sid-alice", waiting 1);
        ("sid-alice",
         matched "S1" "https://growthstudent.daily.co/room0a1b" false
           (Some "bob"));
        ("sid-bob",
         matched "S1" "https://growthstudent.daily.co/room0a1b" false
           (Some "alice"));
        ("sid-alice",
         matched "S2" "https://growthstudent.daily.co/ai2c3d" true None)] ∧
     matched_count "sid-alice" (emitted st) = 2 ∧
     VoiceSession.user1_id <$> voice_session st = [1%Z; 1%Z] ∧
     VoiceSession.is_ai_session <$> voice_session st = [false; true]).
Proof. split; eexists; vm_compute; repeat split; reflexivity. Qed.

(** C3 fails as stated: the pairing at time 1 leaves Alice's timer asleep
    (due at 8).  Alice joins again at time 5, which arms a second timer due
    at 13; at time 8 the first timer wakes, finds her new entry and runs
    the fallback body on it, five units early: the entry is removed and
    the fallback room requested; where the task can use [db.session], the
    fallback [matched] event follows. *)
Lemma stale_timer_fires_on_requeued_entry :
  ∃ st1 st2 st2',
    run [Tick 1; JoinQueue env_ok bob] alice_waiting
      = Some st1 ∧
    tasks st1 = [Task.mk 1 "sid-alice" (sleeping 8)] ∧
    run
      [Tick 4; JoinQueue env_third alice; Tick 3; TimerWake 0;
       TimerRun env_down 0] st1 = Some st2 ∧
    clock st2 = 8%Z ∧
    waiting_queue st2 = [] ∧
    tasks st2 = [Task.mk 1 "sid-alice" finished;
                 Task.mk 1 "sid-alice" (sleeping 13)] ∧
    daily st2 = daily st1 ++ [POST_rooms "ai2c3d"] ∧
    run (cfg := legacy)
      [Tick 4; JoinQueue env_third alice; Tick 3; TimerWake 0;
       TimerRun env_down 0] st1 = Some st2' ∧
    waiting_queue st2' = [] ∧
    emitted st2' =
      emitted st1 ++
        [("sid-alice", waiting 1);
         ("sid-alice",
          matched "S2" "https://growthstudent.daily.co/ai2c3d" true None)].
Proof. do 3 eexists. vm_compute. repeat split; reflexivity. Qed.

(** C4 fails as stated: Alice, paired with Bob in the active session
    [S1], joins again and is queued while [S1] is still in
    [active_sessions]. *)
Lemma queued_while_in_active_session :
  ∃ st,
    reachable st ∧
    user_in_queue 1 (waiting_queue st) = true ∧
    in_active_session 1 st.
Proof.
  exists (fst (handle_join_queue env_third alice paired)).
  split; [|split].
  - by exists [JoinQueue env_ok alice; JoinQueue env_ok bob;
               JoinQueue env_third alice].
  - reflexivity.
  - exists "S1",
      (ActiveSession.mk 1 (Some 2%Z) "room0a1b"
         "https://growthstudent.daily.co/room0a1b" 0 None).
    split; [by vm_compute|by left].
Qed.

(** C5 fails as stated: Alice joins from two connections at once.  Both
    threads drop her entries (line 222) and find the queue empty (line
    225) before either appends (line 274): the queue then holds two
    entries of user 1, and each connection is told position 2. *)
Lemma two_entries_of_one_user :
  ∃ w,
    trun two_tabs initial_world = Some w ∧
    waiting_queue (shared w) = [alice_entry; alice_phone_entry] ∧
    Waiting.user_id <$> waiting_queue (shared w) = [1%Z; 1%Z] ∧
    ¬ NoDup (Waiting.user_id <$> waiting_queue (shared w)) ∧
    ∃ w',
      trun [Line 0; Line 1; Line 0; Line 1] w = Some w' ∧
      emitted (shared w') =
        [("sid-alice", waiting 2); ("sid-alice-phone", waiting 2)] ∧
      JoinThread.pc <$> joins w' = [join_done Returned; join_done Returned].
Proof.
  eexists. split; [vm_compute; reflexivity|].
  split; [reflexivity|]. split; [reflexivity|]. split.
  - simpl. intros Hnd. apply NoDup_cons_1_1 in Hnd.
    apply Hnd. apply list_elem_of_here.
  - eexists. vm_compute. repeat split; reflexivity.
Qed.

(** C6 fails as stated: Bob's thread tests the queue (line 225) while
    Alice is queued, and so heads for a pairing.  Before it reaches line
    226, Erin's join takes Alice and Dave is queued.  Bob's thread then
    pops Dave: Bob observed Alice queued and is paired with a third user
    who was not queued at the time. *)
Lemma pairing_pops_third_entry :
  trun [Serial (JoinQueue env_ok alice)] initial_world
  = Some (mkWorld alice_waiting []) ∧
  waiting_queue alice_waiting = [alice_entry] ∧
  (∃ w0,
     trun [Spawn env_ok bob; Line 0; Line 0] (mkWorld alice_waiting [])
     = Some w0 ∧
     waiting_queue (shared w0) = [alice_entry] ∧
     JoinThread.pc <$> joins w0 = [at_226]) ∧
  ∃ w,
    trun overtaken (mkWorld alice_waiting []) = Some w ∧
    JoinThread.pc <$> joins w = [join_done Returned] ∧
    emitted (shared w) =
      [("sid-alice", waiting 1);
       ("sid-alice",
        matched "S3" "https://growthstudent.daily.co/room4e5f" false
          (Some "erin"));
       ("sid-erin",
        matched "S3" "https://growthstudent.daily.co/room4e5f" false
          (Some "alice"));
       ("sid-dave", waiting 1);
       ("sid-dave",
        matched "S1" "https://growthstudent.daily.co/room0a1b" false
          (Some "bob"));
       ("sid-bob",
        matched "S1" "https://growthstudent.daily.co/room0a1b" false
          (Some "dave"))] ∧
    VoiceSession.user1_id <$> voice_session (shared w) = [1%Z; 5%Z] ∧
    VoiceSession.user2_id <$> voice_session (shared w)
    = [Some 4%Z; Some 2%Z].
Proof.
  split; [reflexivity|]. split; [reflexivity|]. split.
  - eexists. vm_compute. repeat split; reflexivity.
  - eexists. vm_compute. repeat split; reflexivity.
Qed.

(** ** Joins that overlap *)

(** X29: two joins of one user that overlap can pair the user with
    themselves.  Alice's second connection is queued after her first
    thread has dropped her entries (line 222) and before it tests the
    queue (line 225): the first thread pops the entry of the second, and
    the session has user 1 on both sides. *)
Theorem overlapping_joins_pair_user_with_self :
  ∃ w,
    trun own_entry_popped initial_world = Some w ∧
    voice_session (shared w) =
      [VoiceSession.mk "S1" "room0a1b"
         "https://growthstudent.daily.co/room0a1b" 1 (Some 1%Z) false
         "active" 0 None] ∧
    emitted (shared w) =
      [("sid-alice-phone",
        matched "S1" "https://growthstudent.daily.co/room0a1b" false
          (Some "alice"));
       ("sid-alice",
        matched "S1" "https://growthstudent.daily.co/room0a1b" false
          (Some "alice"))].
Proof. eexists. vm_compute. repeat split; reflexivity. Qed.

(** X30: a join that has found the queue non-empty (line 225) raises
    [IndexError] at [popleft] (line 226) when another join has taken the
    entry in between.  Bob's handler ends there: he is neither queued nor
    paired, and nothing is sent to his connection. *)
Theorem overlapping_join_pops_empty_deque :
  ∃ w,
    trun (Serial (JoinQueue env_ok alice) :: emptied) initial_world
    = Some w ∧
    JoinThread.pc <$> joins w = [join_done IndexError] ∧
    waiting_queue (shared w) = [] ∧
    fst <$> emitted (shared w) = ["sid-alice"; "sid-alice"; "sid-erin"] ∧
    VoiceSession.user2_id <$> voice_session (shared w) = [Some 4%Z].
Proof. eexists. vm_compute. repeat split; reflexivity. Qed.

(** ** The theorems at concrete inputs *)



Lemma end_session_repeated_witness :
  User.is_authenticated (Request.current_user alice) = true ∧
  query_first "S1" (voice_session paired) = Some (0, paired_row) ∧
  (DAILY_API_KEY ≠ "" →
   release_count "room0a1b"
     (daily
        (handle_end_session env_down alice (Some "S1")
           (set_clock (clock paired + 5)
              (handle_end_session env_ok alice (Some "S1") paired))))
   = 2 + release_count "room0a1b" (daily paired)).
Proof.
  split; [reflexivity|]. split; [reflexivity|].
  apply (end_session_repeated env_ok env_down alice (Some "S1") "S1"
           0 paired_row 5 paired); [reflexivity|reflexivity|reflexivity|lia].
Defined.

Lemma timeout_race_atomic_witness :
  waiting_queue (set_clock 8 alice_waiting) = [alice_entry] ∧
  tasks (set_clock 8 alice_waiting) !! 0
    = Some (Task.mk 1 "sid-alice" (sleeping 8)) ∧
  (∃ st',
     run [JoinQueue env_ok bob; TimerWake 0; TimerRun env_down 0]
       (set_clock 8 alice_waiting) = Some st' ∧
     waiting_queue st' = [] ∧
     daily st' =
       daily (set_clock 8 alice_waiting) ++ [POST_rooms "room0a1b"]) ∧
  ∃ st',
    run [TimerWake 0; TimerRun env_down 0; JoinQueue env_ok bob]
      (set_clock 8 alice_waiting) = Some st' ∧
    waiting_queue st' = [Waiting.mk 2 "bob" "sid-bob" 8] ∧
    emitted st' =
      emitted (set_clock 8 alice_waiting) ++ [("sid-bob", waiting 1)].
Proof.
  split; [reflexivity|]. split; [reflexivity|].
  destruct (timeout_race_atomic (set_clock 8 alice_waiting)
              alice_entry env_ok env_down bob 0 8)
    as [(st1 & Hrun1 & Hq1 & _ & _ & Hd1 & _) (st' & Hrun & Hq & Hem & _)];
    [reflexivity|reflexivity|simpl; lia|reflexivity|simpl; lia|
     simpl; discriminate|reflexivity|reflexivity|].
  split.
  - exists st1. split; [exact Hrun1|]. split; [exact Hq1|exact Hd1].
  - exists st'. split; [exact Hrun|]. split; [exact Hq|exact Hem].
Defined.

Lemma stale_timer_without_entry_witness :
  tasks alice_waiting !! 0 = Some (Task.mk 1 "sid-alice" (sleeping 8)) ∧
  run
    [CancelSearch alice; Tick 8; TimerWake 0; TimerRun env_down 0]
    alice_waiting
  = Some (set_pc 0 finished
            (set_clock (clock alice_waiting + 8)
               (handle_cancel_search alice alice_waiting))).
Proof.
  split; [reflexivity|].
  destruct (stale_timer_without_entry alice_waiting env_down 1
              "sid-alice" 0 8 8) as (_ & Hc & _);
    [reflexivity|lia|simpl; lia|].
  destruct (Hc alice) as (_ & _ & _ & Hrun & _); [reflexivity|reflexivity|].
  exact Hrun.
Defined.

Lemma new_session_participants_not_queued_witness :
  NoDup (Waiting.user_id <$> waiting_queue alice_then_dave) ∧
  step_fun (JoinQueue env_ok bob) alice_then_dave
  = Some (fst (handle_join_queue env_ok bob alice_then_dave)) ∧
  active_sessions alice_then_dave !! "S1" = None ∧
  waiting_queue (fst (handle_join_queue env_ok bob alice_then_dave))
  = [dave_entry] ∧
  user_in_queue 1
    (waiting_queue (fst (handle_join_queue env_ok bob alice_then_dave)))
  = false.
Proof.
  assert (NoDup (Waiting.user_id <$> waiting_queue alice_then_dave)) as Hnd.
  { change (NoDup [1%Z; 5%Z]). apply NoDup_cons. split.
    - intros Hin. apply list_elem_of_singleton in Hin. discriminate.
    - apply NoDup_singleton. }
  split; [exact Hnd|]. split; [reflexivity|]. split; [reflexivity|].
  split; [reflexivity|].
  apply (new_session_participants_not_queued
           (JoinQueue env_ok bob) alice_then_dave _ "S1"
           (ActiveSession.mk 1 (Some 2%Z) "room0a1b"
              "https://growthstudent.daily.co/room0a1b" 0 None) 1).
  - exact Hnd.
  - reflexivity.
  - vm_compute. reflexivity.
  - vm_compute. discriminate.
  - left. reflexivity.
Defined.

Lemma queue_one_entry_per_user_witness :
  NoDup (Waiting.user_id <$> waiting_queue alice_then_dave) ∧
  step_fun (JoinQueue env_third alice) alice_then_dave
  = Some (fst (handle_join_queue env_third alice alice_then_dave)) ∧
  User.is_authenticated (Request.current_user alice) = true ∧
  NoDup (Waiting.user_id <$>
           waiting_queue
             (fst (handle_join_queue env_third alice alice_then_dave))) ∧
  waiting_queue alice_twice = [alice_entry; alice_phone_entry] ∧
  (∀ u, u ∈ waiting_queue (fst (handle_join_queue env_third alice
                                  alice_twice)) →
        Waiting.user_id u = 1%Z →
        u = Waiting.mk 1 "alice" "sid-alice" 0) ∧
  user_in_queue 1
    (waiting_queue
       (snd (join_line (JoinThread.mk env_third alice at_222) alice_twice)))
  = false.
Proof.
  assert (NoDup (Waiting.user_id <$> waiting_queue alice_then_dave)) as Hnd.
  { change (NoDup [1%Z; 5%Z]). apply NoDup_cons. split.
    - intros Hin. apply list_elem_of_singleton in Hin. discriminate.
    - apply NoDup_singleton. }
  split; [exact Hnd|]. split; [reflexivity|]. split; [reflexivity|].
  destruct (queue_one_entry_per_user (JoinQueue env_third alice)
              alice_then_dave _ alice_twice env_third alice Hnd eq_refl
              eq_refl)
    as (H1 & _ & H3 & _ & H5).
  split; [exact H1|]. split; [reflexivity|]. split; [exact H3|exact H5].
Defined.

Lemma fifo_pairing_witness :
  without_user 2 (waiting_queue alice_then_dave)
  = [alice_entry; dave_entry] ∧
  fresh "S1" alice_then_dave ∧
  waiting_queue (fst (handle_join_queue env_ok bob alice_then_dave))
  = [dave_entry] ∧
  voice_session (fst (handle_join_queue env_ok bob alice_then_dave))
  = voice_session alice_then_dave ++
      [VoiceSession.mk "S1" (snd (room_for "room" env_ok))
         (fst (room_for "room" env_ok)) 1 (Some 2%Z) false
         "active" 0 None].
Proof.
  split; [reflexivity|]. split; [reflexivity|].
  destruct (fifo_pairing alice_then_dave env_ok bob alice_entry [dave_entry])
    as (_ & _ & _ & _ & _ & Hq & _ & Hrow);
    [reflexivity|reflexivity|reflexivity|].
  split; [exact Hq|exact Hrow].
Defined.

Lemma scenario_pairing_witness :
  waiting_queue initial = [] ∧
  (0 ≤ 3 < 8)%Z ∧
  emitted alice_waiting = emitted initial ++ [("sid-alice", waiting 1)] ∧
  run [Tick 3; TimerWake (length (tasks initial))]
    alice_waiting = None.
Proof.
  split; [reflexivity|]. split; [lia|].
  destruct (scenario_pairing initial env_ok env_ok alice bob 3)
    as (Hem & Hwake & _);
    [reflexivity|reflexivity|reflexivity|simpl; lia|lia|reflexivity|].
  split; [exact Hem|exact Hwake].
Defined.

Lemma scenario_fallback_raises_witness :
  task_db_session = false ∧
  waiting_queue initial = [] ∧
  (8 ≤ 8)%Z ∧
  snd (check_timeout env_down 1 "sid-alice"
         (set_clock (clock alice_waiting + 8) alice_waiting))
  = RuntimeError ∧
  ∃ st3,
    run [Tick 8; TimerWake 0; TimerRun env_down 0] alice_waiting
    = Some st3 ∧
    waiting_queue st3 = [] ∧
    voice_session st3 = [] ∧
    emitted st3 = [("sid-alice", waiting 1)].
Proof.
  split; [reflexivity|]. split; [reflexivity|]. split; [lia|].
  destruct (scenario_fallback_raises initial env_ok env_down alice 8)
    as (_ & Hex & st3 & Hrun & Hq & Htbl & _ & Hem & _);
    [reflexivity|reflexivity|reflexivity|lia|].
  split; [exact Hex|].
  exists st3. split; [exact Hrun|]. split; [exact Hq|].
  split; [exact Htbl|exact Hem].
Defined.


Lemma end_session_always_notifies_witness :
  User.is_authenticated (Request.current_user alice) = true ∧
  emitted (handle_end_session env_ok alice None paired)
  = emitted paired ++ [("sid-alice", session_ended)].
Proof.
  split; [reflexivity|].
  apply (end_session_always_notifies env_ok alice None paired).
  reflexivity.
Defined.

(** ** The further properties at concrete inputs *)

Lemma paired_reachable : reachable paired.
Proof. by exists [JoinQueue env_ok alice; JoinQueue env_ok bob]. Defined.

Lemma paired_row_in : paired_row ∈ voice_session paired.
Proof. apply list_elem_of_here. Defined.

Lemma session_ids_unique_witness :
  reachable paired ∧
  NoDup (VoiceSession.session_id <$> voice_session paired).
Proof.
  split; [exact paired_reachable|].
  exact (session_ids_unique paired paired_reachable).
Defined.

Lemma active_sessions_have_rows_witness :
  active_sessions paired !! "S1" = Some paired_entry ∧
  ∃ i row,
    voice_session paired !! i = Some row ∧
    query_first "S1" (voice_session paired) = Some (i, row) ∧
    VoiceSession.session_id row = "S1" ∧
    VoiceSession.user1_id row = 1%Z ∧
    VoiceSession.user2_id row = Some 2%Z ∧
    VoiceSession.room_name row = "room0a1b" ∧
    VoiceSession.room_url row = "https://growthstudent.daily.co/room0a1b".
Proof.
  assert (active_sessions paired !! "S1" = Some paired_entry) as Hk
    by (vm_compute; reflexivity).
  split; [exact Hk|].
  exact (active_sessions_have_rows paired "S1" paired_entry paired_reachable
           Hk).
Defined.

Lemma rows_status_well_formed_witness :
  paired_row ∈ voice_session paired ∧ row_well_formed paired_row.
Proof.
  split; [exact paired_row_in|].
  exact (rows_status_well_formed paired paired_row paired_reachable
           paired_row_in).
Defined.

Lemma no_self_pairing_witness :
  paired_row ∈ voice_session paired ∧
  User.is_authenticated (Request.current_user alice) = true ∧
  VoiceSession.mk "S3" "room4e5f" "https://growthstudent.daily.co/room4e5f"
    5 (Some 1%Z) false "active" 0 None
  ∈ voice_session
      (fst (handle_join_queue env_third alice alice_then_dave)) ∧
  VoiceSession.user1_id
    (VoiceSession.mk "S3" "room4e5f" "https://growthstudent.daily.co/room4e5f"
       5 (Some 1%Z) false "active" 0 None) ≠ 1%Z.
Proof.
  assert (VoiceSession.mk "S3" "room4e5f"
            "https://growthstudent.daily.co/room4e5f" 5 (Some 1%Z) false
            "active" 0 None
          ∈ voice_session
              (fst (handle_join_queue env_third alice alice_then_dave)))
    as Hin by apply list_elem_of_here.
  split; [exact paired_row_in|]. split; [reflexivity|].
  split; [exact Hin|].
  destruct (no_self_pairing paired alice_then_dave env_third alice paired_row
              _ paired_reachable paired_row_in eq_refl Hin)
    as (_ & _ & Hne & _).
  - simpl. apply not_elem_of_nil.
  - exact Hne.
Defined.

Lemma matched_events_have_rows_witness :
  ("sid-bob",
   matched "S1" "https://growthstudent.daily.co/room0a1b" false
     (Some "alice")) ∈ emitted paired ∧
  ∃ row,
    row ∈ voice_session paired ∧
    VoiceSession.session_id row = "S1" ∧
    VoiceSession.room_url row = "https://growthstudent.daily.co/room0a1b" ∧
    VoiceSession.is_ai_session row = false.
Proof.
  assert (("sid-bob",
           matched "S1" "https://growthstudent.daily.co/room0a1b" false
             (Some "alice")) ∈ emitted paired) as Hin.
  { do 2 apply list_elem_of_further. apply list_elem_of_here. }
  split; [exact Hin|].
  exact (matched_events_have_rows paired _ _ _ _ _ paired_reachable Hin).
Defined.

Lemma ended_stays_ended_witness :
  voice_session (handle_end_session env_ok alice (Some "S1") paired) !! 0
  = Some (end_row 0 paired_row) ∧
  ∃ st' row',
    run [JoinQueue env_third alice; Disconnect alice; Tick 9;
         EndSession env_down bob (Some "S1")]
      (handle_end_session env_ok alice (Some "S1") paired) = Some st' ∧
    voice_session st' !! 0 = Some row' ∧
    VoiceSession.status row' = "ended".
Proof.
  split; [reflexivity|].
  destruct (ended_stays_ended
              [JoinQueue env_third alice; Disconnect alice; Tick 9;
               EndSession env_down bob (Some "S1")]
              (handle_end_session env_ok alice (Some "S1") paired) _ 0
              (end_row 0 paired_row) eq_refl eq_refl)
    as (row' & Hrow & _ & _ & _ & _ & _ & _ & Hst).
  eexists _, row'. split; [reflexivity|]. split; [exact Hrow|].
  apply Hst. reflexivity.
Defined.

Lemma sessions_persist_without_end_witness :
  ∃ st',
    run [Disconnect alice; Disconnect bob; JoinQueue env_third alice;
         Tick 8; TimerWake 1; TimerRun env_down 1] paired = Some st' ∧
    voice_session paired `prefix_of` voice_session st' ∧
    active_sessions paired ⊆ active_sessions st'.
Proof.
  eexists. split; [reflexivity|].
  exact (sessions_persist_without_end
           [Disconnect alice; Disconnect bob; JoinQueue env_third alice;
            Tick 8; TimerWake 1; TimerRun env_down 1] paired _
           paired_reachable eq_refl eq_refl).
Defined.


Lemma no_key_no_requests_witness :
  DAILY_API_KEY (Config := keyless) = "" ∧
  reachable (cfg := keyless) keyless_paired ∧
  daily keyless_paired = [].
Proof.
  assert (reachable (cfg := keyless) keyless_paired) as Hr
    by (by exists [JoinQueue env_ok alice; JoinQueue env_ok bob]).
  split; [reflexivity|]. split; [exact Hr|].
  exact (no_key_no_requests (cfg := keyless) keyless_paired eq_refl Hr).
Defined.

Lemma cancel_then_join_enqueues_witness :
  without_user 1 (waiting_queue alice_twice) = [] ∧
  waiting_queue (handle_cancel_search alice alice_twice) = [] ∧
  waiting_queue
    (fst (handle_join_queue env_ok bob
            (handle_cancel_search alice alice_twice)))
  = [Waiting.mk 2 "bob" "sid-bob" 0].
Proof.
  split; [reflexivity|].
  destruct (cancel_then_join_enqueues alice_twice env_ok alice bob
              eq_refl eq_refl eq_refl)
    as (_ & H1 & _ & H3 & _).
  split; [exact H1|exact H3].
Defined.

Lemma unauthenticated_requests_ignored_witness :
  User.is_authenticated (Request.current_user mallory) = false ∧
  step_fun (JoinQueue env_ok mallory) alice_waiting = Some alice_waiting ∧
  step_fun (EndSession env_ok mallory (Some "S1")) paired = Some paired.
Proof.
  split; [reflexivity|]. split.
  - exact (unauthenticated_requests_ignored (JoinQueue env_ok mallory)
             mallory alice_waiting eq_refl eq_refl).
  - exact (unauthenticated_requests_ignored
             (EndSession env_ok mallory (Some "S1")) mallory paired eq_refl
             eq_refl).
Defined.

Lemma end_releases_registered_room_witness :
  waiting_queue alice_waiting = [alice_entry] ∧
  fresh "S1" alice_waiting ∧
  daily (handle_end_session env_down alice (Some "S1") paired)
  = daily alice_waiting ++
      [POST_rooms "room0a1b";
       DELETE_rooms (snd (room_for "room" env_ok))] ∧
  active_sessions (handle_end_session env_down alice (Some "S1") paired)
    !! "S1" = None.
Proof.
  split; [reflexivity|]. split; [reflexivity|].
  destruct (end_releases_registered_room alice_waiting env_ok env_down bob
              alice alice_entry)
    as (Hd & _ & _ & Ha & _);
    [simpl; discriminate|reflexivity|reflexivity|reflexivity|simpl; lia|
     reflexivity|simpl; discriminate|].
  split; [exact Hd|exact Ha].
Defined.

Lemma duplicate_session_id_aborts_witness :
  waiting_queue alice_again = [alice_entry] ∧
  query_first "S1" (voice_session alice_again) = Some (0, paired_row) ∧
  snd (handle_join_queue env_ok bob alice_again) = IntegrityError ∧
  waiting_queue (fst (handle_join_queue env_ok bob alice_again)) = [] ∧
  emitted (fst (handle_join_queue env_ok bob alice_again))
  = emitted alice_again.
Proof.
  split; [reflexivity|]. split; [reflexivity|].
  destruct (duplicate_session_id_aborts alice_again env_ok bob alice_entry 0
              paired_row)
    as [(H1 & H2 & H3 & _) _];
    [reflexivity|reflexivity|simpl; lia|reflexivity|].
  split; [exact H1|]. split; [exact H2|exact H3].
Defined.

Lemma rejoin_entry_taken_by_first_timer_witness :
  waiting_queue initial = [] ∧
  fresh "S2" initial ∧
  ∃ st',
    run [JoinQueue env_ok alice; Tick 3; JoinQueue env_ok alice_phone;
         Tick (8 - 3); TimerWake 0; TimerRun env_down 0; Tick 3;
         TimerWake 1; TimerRun env_third 1] initial = Some st' ∧
    emitted st' =
      [("sid-alice", waiting 1); ("sid-alice-phone", waiting 1)] ∧
    waiting_queue st' = [].
Proof.
  split; [reflexivity|]. split; [reflexivity|].
  destruct (rejoin_entry_taken_by_first_timer initial env_ok env_ok
              env_down env_third alice alice_phone 3)
    as (st' & Hrun & Hem & Hq & _);
    [reflexivity|reflexivity|reflexivity|reflexivity|lia|reflexivity|].
  exists st'. split; [exact Hrun|]. split; [exact Hem|exact Hq].
Defined.

Lemma login_rejects_blank_witness :
  LoginRequest.method (LoginRequest.mk 10 POST (Some "carol") None) = POST ∧
  login (lib := stand_in) (LoginRequest.mk 10 POST (Some "carol") None)
    [carol_row]
  = ([carol_row], login_error 400 "Username and password required", None).
Proof.
  split; [reflexivity|].
  apply (login_rejects_blank (lib := stand_in)); [reflexivity|].
  right. reflexivity.
Defined.

Lemma register_then_login_witness :
  find_username "carol" [] = None ∧
  login (lib := stand_in) carol_signup [] =
    ([carol_row], login_success "/", Some carol_row) ∧
  login (lib := stand_in)
    (LoginRequest.mk 20 POST (Some "carol") (Some "guess")) [carol_row]
  = ([carol_row], login_error 401 "Invalid password", None).
Proof.
  split; [reflexivity|].
  destruct (register_then_login (lib := stand_in) 10 "carol" "secret" [])
    as (H1 & _ & H3); [simpl; discriminate|discriminate|reflexivity|].
  split; [exact H1|].
  apply (H3 20%Z "guess"); simpl; discriminate.
Defined.

Lemma accounts_unique_witness :
  carol_row ∈ logins (lib := stand_in) [carol_signup; carol_signup] [] ∧
  NoDup (Account.username <$>
           logins (lib := stand_in) [carol_signup; carol_signup] []).
Proof.
  assert (carol_row
          ∈ logins (lib := stand_in) [carol_signup; carol_signup] [])
    as Hin by apply list_elem_of_here.
  split; [exact Hin|].
  exact (proj1 (accounts_unique (lib := stand_in)
                  [carol_signup; carol_signup] carol_row Hin)).
Defined.

Lemma login_keeps_accounts_witness :
  [carol_row] !! 0 = Some carol_row ∧
  logins (lib := stand_in)
    [LoginRequest.mk 20 POST (Some "carol") (Some "guess");
     LoginRequest.mk 30 POST (Some "dave") (Some "pw")] [carol_row] !! 0
  = Some carol_row.
Proof.
  split; [reflexivity|].
  exact (proj2 (login_keeps_accounts (lib := stand_in)
                  [LoginRequest.mk 20 POST (Some "carol") (Some "guess");
                   LoginRequest.mk 30 POST (Some "dave") (Some "pw")]
                  [carol_row] 0 carol_row eq_refl)).
Defined.

Lemma logged_in_presented_password_witness :
  login (lib := stand_in) carol_signup [carol_row]
  = ([carol_row], login_success "/", Some carol_row) ∧
  Account.password carol_row
  = sha256_hexdigest (Builtins := stand_in)
      (default "" (LoginRequest.password carol_signup)).
Proof.
  split; [reflexivity|].
  destruct (logged_in_presented_password (lib := stand_in) carol_signup
              [carol_row] [carol_row] (login_success "/") carol_row eq_refl)
    as (_ & _ & _ & Hp & _).
  exact Hp.
Defined.

Lemma load_user_finds_logged_in_witness :
  login (lib := stand_in) carol_signup (logins (lib := stand_in) [] [])
  = ([carol_row], login_success "/", Some carol_row) ∧
  load_user 1 [carol_row] = Some carol_row.
Proof.
  split; [reflexivity|].
  exact (load_user_finds_logged_in (lib := stand_in) [] carol_signup
           [carol_row] (login_success "/") carol_row eq_refl).
Defined.

Lemma migrate_database_drops_old_schema_witness :
  agora_db !! "voice_session"
  = Some (Table.mk ["id"; "session_id"; "channel_name"] 3) ∧
  migrate_database agora_db !! "voice_session"
  = Some (Table.mk voice_session_columns 0) ∧
  migrate_database agora_db !! "user" = Some (Table.mk user_columns 2).
Proof.
  assert (agora_db !! "voice_session"
          = Some (Table.mk ["id"; "session_id"; "channel_name"] 3)) as Ht
    by (vm_compute; reflexivity).
  split; [exact Ht|].
  destruct (migrate_database_drops_old_schema agora_db _ Ht) as [H1 H2].
  - simpl. do 2 apply list_elem_of_further. apply list_elem_of_here.
  - simpl. apply (proj1 (bool_decide_eq_false _)). reflexivity.
  - split; [exact H1|]. apply H2; [discriminate|]. vm_compute. reflexivity.
Defined.

Lemma migrate_database_keeps_table_witness :
  migrate_database agora_db !! "voice_session"
  = Some (Table.mk voice_session_columns 0) ∧
  migrate_database (migrate_database agora_db) !! "voice_session"
  = Some (Table.mk voice_session_columns 0).
Proof.
  assert (migrate_database agora_db !! "voice_session"
          = Some (Table.mk voice_session_columns 0)) as Ht
    by (vm_compute; reflexivity).
  split; [exact Ht|].
  apply (migrate_database_keeps_table (migrate_database agora_db) _ Ht).
  left. simpl. do 2 apply list_elem_of_further. apply list_elem_of_here.
Defined.




Lemma scenario_fallback_witness :
  task_db_session (Config := legacy) = true ∧
  waiting_queue initial = [] ∧
  (8 ≤ 8)%Z ∧
  ∃ st3,
    run (cfg := legacy) [Tick 8; TimerWake 0; TimerRun env_down 0]
      alice_waiting = Some st3 ∧
    waiting_queue st3 = [] ∧
    emitted st3 =
      [("sid-alice", waiting 1);
       ("sid-alice",
        matched "S2" "https://growthstudent.daily.co/ai2c3d" true None)].
Proof.
  split; [reflexivity|]. split; [reflexivity|]. split; [lia|].
  destruct (scenario_fallback (cfg := legacy) initial env_ok env_down alice 8)
    as (_ & st3 & Hrun & Hq & _ & _ & Hem & _);
    [reflexivity|reflexivity|reflexivity|lia|reflexivity|].
  exists st3. split; [exact Hrun|]. split; [exact Hq|exact Hem].
Defined.
